(** * The sentiment pipeline: harvesting and enrichment lambdas

    A shallow embedding of [src/lambda/scraping_lambda.py] and
    [src/lambda/enrichment_lambda.py], and the properties of the pipeline
    proved on it.

    Conventions of the embedding.
    - A Python [str] is a [string]; every character stands for one code
      point (below 256).
    - A value produced by [json.loads] is a [json]; a number is kept by its
      exact rational value, be it an [int] or a [float] (infinities and
      NaN are left out). Where the code converts a number with [float],
      the rounding of a large [int], and its overflow, are the library's.
    - An exception is a value of [exn]; code that may raise and that talks
      to the object store, the inference endpoint or the social search runs
      in the monad [M], which threads the state of the outside world and
      stops at the first exception that is not caught. *)

From Stdlib Require Import String Ascii List ZArith QArith Bool Lia Sorted.
From stdpp Require Import base option list gmap strings.

Local Open Scope string_scope.
Local Open Scope list_scope.
Local Open Scope stdpp_scope.

(** ** Python strings *)

Module PyStr.

(** [str.isspace] on one character. *)
Definition is_space (c : ascii) : bool :=
  let n := nat_of_ascii c in
  ((9 <=? n)%nat && (n <=? 13)%nat) || ((28 <=? n)%nat && (n <=? 32)%nat)
  || (n =? 133)%nat || (n =? 160)%nat.

Definition is_char (c : ascii) : ascii -> bool := Ascii.eqb c.

Fixpoint lstrip (p : ascii -> bool) (s : string) : string :=
  match s with
  | EmptyString => EmptyString
  | String a s' => if p a then lstrip p s' else s
  end.

Fixpoint rstrip (p : ascii -> bool) (s : string) : string :=
  match s with
  | EmptyString => EmptyString
  | String a s' =>
      match rstrip p s' with
      | EmptyString => if p a then EmptyString else String a EmptyString
      | r => String a r
      end
  end.

(** [s.strip()] is [strip is_space s]; [s.strip('$')] is
    [strip (is_char "$") s]. *)
Definition strip (p : ascii -> bool) (s : string) : string :=
  lstrip p (rstrip p s).

(** [s.endswith(suf)] *)
Fixpoint endswith (s suf : string) : bool :=
  if String.eqb s suf then true
  else match s with
       | EmptyString => false
       | String _ s' => endswith s' suf
       end.

(** [s.split(c)] for a separator of one character. *)
Fixpoint split (c : ascii) (s : string) : list string :=
  match s with
  | EmptyString => [EmptyString]
  | String a s' =>
      if Ascii.eqb a c then EmptyString :: split c s'
      else match split c s' with
           | h :: t => String a h :: t
           | [] => [String a EmptyString]
           end
  end.

(** Cut at the first [c]: [s.split(c, 1)] has two parts when [c] occurs. *)
Fixpoint cut_first (c : ascii) (s : string) : option (string * string) :=
  match s with
  | EmptyString => None
  | String a s' =>
      if Ascii.eqb a c then Some (EmptyString, s')
      else match cut_first c s' with
           | Some (h, t) => Some (String a h, t)
           | None => None
           end
  end.

(** Cut at the last [c]: [s.rsplit(c, 1)] has two parts when [c] occurs. *)
Fixpoint cut_last (c : ascii) (s : string) : option (string * string) :=
  match s with
  | EmptyString => None
  | String a s' =>
      match cut_last c s' with
      | Some (h, t) => Some (String a h, t)
      | None => if Ascii.eqb a c then Some (EmptyString, s') else None
      end
  end.

(** [s.split(c, 1)[-1]] *)
Definition split1_last (c : ascii) (s : string) : string :=
  match cut_first c s with Some (_, t) => t | None => s end.

(** [s.rsplit(c, 1)[0]] *)
Definition rsplit1_head (c : ascii) (s : string) : string :=
  match cut_last c s with Some (h, _) => h | None => s end.

(** [s.replace(c, new)] for a pattern of one character. *)
Fixpoint replace (c : ascii) (new : string) (s : string) : string :=
  match s with
  | EmptyString => EmptyString
  | String a s' =>
      if Ascii.eqb a c then new +:+ replace c new s'
      else String a (replace c new s')
  end.

(** [s[:n]] *)
Fixpoint take (n : nat) (s : string) : string :=
  match n, s with
  | S n', String a s' => String a (take n' s')
  | _, _ => EmptyString
  end.

(** [re.sub(p+, ' ', s)] for a class [p] of characters: every maximal run
    of characters of the class becomes one space. *)
Fixpoint collapse (p : ascii -> bool) (s : string) : string :=
  match s with
  | EmptyString => EmptyString
  | String a s' =>
      if p a then
        match s' with
        | String b _ => if p b then collapse p s' else String " " (collapse p s')
        | EmptyString => String " " EmptyString
        end
      else String a (collapse p s')
  end.

(** [c in s] and [sep.join(parts)], used to state what [split] does. *)
Fixpoint has_char (c : ascii) (s : string) : bool :=
  match s with
  | EmptyString => false
  | String a s' => Ascii.eqb a c || has_char c s'
  end.

Fixpoint join (c : ascii) (parts : list string) : string :=
  match parts with
  | [] => EmptyString
  | [p] => p
  | p :: rest => p +:+ String c (join c rest)
  end.

End PyStr.

(** ** JSON values, as [json.loads] returns them *)

#[warnings="-register-all"]
Inductive json : Type :=
| JNull
| JBool (b : bool)
| JNum (q : Q)
| JStr (s : string)
| JArr (l : list json)
| JObj (d : list (string * json)).

(** The exceptions the two lambdas can meet. [NoSuchKey] is the store's
    "not found"; [ServiceError] is any other failure of an outside call. *)
Inductive exn : Type :=
| NoSuchKey
| ServiceError (msg : string)
| JSONDecodeError
| AttributeError (attr : string)
| TypeError
| ValueError
| OverflowError.

Definition result (A : Type) : Type := (exn + A)%type.

(** Functions of Python's library that the lambdas call and that are taken
    as given: [float] on a [str] ([None] when it raises [ValueError]),
    [float] on an [int] of magnitude above 2^53 (the nearest float, or
    [None] when it raises [OverflowError]),
    [urllib.parse.unquote_plus] and [emoji.replace_emoji(_, replace='')]. *)
Record PyLib : Type := {
  float_of_str : string -> option Q;
  float_of_int : Z -> option Q;
  unquote_plus : string -> string;
  replace_emoji : string -> string
}.

Module Py.

(** Truth value of a JSON value ([bool(v)]). *)
Definition truthy (v : json) : bool :=
  match v with
  | JNull => false
  | JBool b => b
  | JNum q => negb (Qeq_bool q 0)
  | JStr s => negb (String.eqb s "")
  | JArr l => match l with [] => false | _ => true end
  | JObj d => match d with [] => false | _ => true end
  end.

(** [a or b] *)
Definition or_ (a b : json) : json := if truthy a then a else b.

(** [d.get(k)] as an option, [k in d], [d.get(k, dflt)], [d[k] = v]. *)
Fixpoint lookup (d : list (string * json)) (k : string) : option json :=
  match d with
  | [] => None
  | (k', v) :: d' => if String.eqb k' k then Some v else lookup d' k
  end.

Definition contains (d : list (string * json)) (k : string) : bool :=
  match lookup d k with Some _ => true | None => false end.

Definition get (d : list (string * json)) (k : string) (dflt : json) : json :=
  match lookup d k with Some v => v | None => dflt end.

Fixpoint set (d : list (string * json)) (k : string) (v : json)
  : list (string * json) :=
  match d with
  | [] => [(k, v)]
  | (k', v') :: d' =>
      if String.eqb k' k then (k', v) :: d' else (k', v') :: set d' k v
  end.

(** The number a value is when it is an [int], a [float] or a [bool]. *)
Definition as_number (v : json) : option Q :=
  match v with
  | JNum q => Some q
  | JBool b => Some (if b then 1 else 0)%Q
  | _ => None
  end.

Definition Qgtb (x y : Q) : bool := negb (Qle_bool x y).

(** [a == b] on decoded JSON: numbers and booleans by value, lists item
    by item, dictionaries key by key whatever the order of the keys. *)
Fixpoint eq (a b : json) {struct a} : bool :=
  match a, b with
  | JNull, JNull => true
  | JStr s, JStr t => String.eqb s t
  | JArr la, JArr lb =>
      (fix eq_list (la lb : list json) {struct la} : bool :=
         match la, lb with
         | [], [] => true
         | x :: la', y :: lb' => eq x y && eq_list la' lb'
         | _, _ => false
         end) la lb
  | JObj da, JObj db =>
      (length da =? length db)%nat
      && (fix eq_items (da : list (string * json)) : bool :=
            match da with
            | [] => true
            | (k, v) :: da' =>
                match lookup db k with
                | Some v' => eq v v'
                | None => false
                end && eq_items da'
            end) da
  | _, _ =>
      match as_number a, as_number b with
      | Some x, Some y => Qeq_bool x y
      | _, _ => false
      end
  end.

(** [x in l] for a list [l] *)
Definition elem (x : json) (l : list json) : bool :=
  existsb (fun y => eq y x) l.

(** [a > b]. Numbers compare by value and strings by code points; [None]
    and dictionaries have no order, and neither have values of two
    different kinds. Two lists do compare in Python; a list used as a
    score makes [_pick_best_label] raise [TypeError] whichever way the
    comparison goes ([float] of a list raises it), so their order is
    not spelled out. *)
Definition gt (a b : json) : result bool :=
  match as_number a, as_number b with
  | Some x, Some y => inr (Qgtb x y)
  | _, _ =>
      match a, b with
      | JStr s, JStr t => inr (String.ltb t s)
      | _, _ => inl TypeError
      end
  end.

(** [max(items, key=key)] on a list that is not empty: the running
    maximum is replaced only by an item whose key is strictly greater. *)
Fixpoint max_from (key : json -> json) (best : json) (items : list json)
  : result json :=
  match items with
  | [] => inr best
  | x :: rest =>
      match gt (key x) (key best) with
      | inl e => inl e
      | inr true => max_from key x rest
      | inr false => max_from key best rest
      end
  end.

(** The integer a number is, when it is one. *)
Definition as_integer (q : Q) : option Z :=
  if (Qnum q mod Zpos (Qden q) =? 0)%Z
  then Some (Qnum q / Zpos (Qden q))%Z
  else None.

(** A number that [float] returns as it is: a number that is not an
    integer is a [float] already, and an integer of magnitude up to 2^53
    is a [float] exactly. *)
Definition is_exact_float (q : Q) : bool :=
  match as_integer q with
  | Some n => (Z.abs n <=? 2 ^ 53)%Z
  | None => true
  end.

(** [float(q)] on a number: beyond 2^53 an integer is rounded to the
    nearest [float], or raises [OverflowError] when it is out of range. *)
Definition float_of_number (lib : PyLib) (q : Q) : result Q :=
  match as_integer q with
  | Some n =>
      if (Z.abs n <=? 2 ^ 53)%Z then inr q
      else match float_of_int lib n with
           | Some f => inr f
           | None => inl OverflowError
           end
  | None => inr q
  end.

(** [float(v)] *)
Definition float (lib : PyLib) (v : json) : result Q :=
  match v with
  | JNum q => float_of_number lib q
  | JBool b => inr (if b then 1 else 0)%Q
  | JStr s => match float_of_str lib s with
              | Some q => inr q
              | None => inl ValueError
              end
  | _ => inl TypeError
  end.

(** Does [len(v)] return? *)
Definition has_len (v : json) : bool :=
  match v with
  | JStr _ | JArr _ | JObj _ => true
  | _ => false
  end.

Definition is_dict (v : json) : bool :=
  match v with JObj _ => true | _ => false end.

(** [v.get(k, dflt)] on a value known to be a dictionary. *)
Definition vget (v : json) (k : string) (dflt : json) : json :=
  match v with JObj d => get d k dflt | _ => dflt end.

Definition vcontains (v : json) (k : string) : bool :=
  match v with JObj d => contains d k | _ => false end.

End Py.

(** ** enrichment_lambda.py: selection of the label *)

Definition MAX_CHARS : nat := 1024.
Definition SOURCE_BUCKET : string := "reddit-crawler-bucket".
Definition DEST_BUCKET : string := "x-enriched-bucket".

(** The sentinel, [("unknown", 0.0)]. *)
Definition sentinel : json * Q := (JStr "unknown", 0%Q).

Definition score_key (x : json) : json := Py.vget x "score" (JNum 0).

(** The candidates [_pick_best_label] keeps: the first element when it is
    a list, else the response itself, filtered to the dictionaries that
    have a ["label"]; [None] when the response is not a list or is empty. *)
Definition candidates (result_json : json) : option (list json) :=
  match result_json with
  | JArr (first :: others) =>
      let preds := match first with
                   | JArr inner => inner
                   | _ => first :: others
                   end in
      Some (List.filter (fun p => Py.is_dict p && Py.vcontains p "label") preds)
  | _ => None
  end.

Definition _pick_best_label (lib : PyLib) (result_json : json)
  : result (json * Q) :=
  match candidates result_json with
  | Some (p :: preds) =>
      match Py.max_from score_key p preds with
      | inl e => inl e
      | inr best =>
          match Py.float lib (score_key best) with
          | inl e => inl e
          | inr score => inr (Py.vget best "label" (JStr "unknown"), score)
          end
      end
  | _ => inr sentinel
  end.

(** ** The outside world: object store, inference endpoint, social search *)

(** What an object of the store holds: a JSON document, kept decoded (so
    that [json.loads] of what [json.dumps] wrote gives the value back,
    whatever the indentation), or bytes that are not a JSON document. *)
Inductive body : Type :=
| BJson (doc : json)
| BRaw (raw : string).

(** A post as the social search returns it (the fields of twscrape's
    [Tweet] that the scraper reads). *)
Record Tweet : Type := {
  tw_id : Z;
  tw_username : string;
  tw_displayname : string;
  tw_rawContent : string;
  tw_date : string;
  tw_likeCount : Z;
  tw_retweetCount : Z;
  tw_replyCount : Z;
  tw_hashtags : option (list string);
  tw_url : string
}.

(** A table cell the discovery page yields for the selector
    [td[data-th="Code"], td[data-title="Code"]]: the text of its [strong]
    child when it has one, and its own text. *)
Record Cell : Type := {
  cell_strong : option string;
  cell_text : string
}.

(** The calls that leave the process, in the order they were made. *)
Inductive event : Type :=
| EvGet (bucket key : string)
| EvPut (bucket key : string) (content : body)
| EvDelete (bucket key : string)
| EvInvoke (text : string)
| EvSearch (query : string).

Record World : Type := {
  objs : gmap (string * string) body;
  trace : list event
}.

(** How the outside answers, given the calls made so far: whether a store
    call fails for a reason of its own, what the endpoint answers (the
    decoded response, or the exception of the call or of its decoding),
    what the search returns, what the discovery page holds, whether the
    account pool logs in with the configured accounts, and what the clock
    reads (the day, and the instant 24 hours ago, both in the formats of
    the scraper). *)
Record Env : Type := {
  s3_fault : list event -> event -> option exn;
  infer : list event -> string -> result json;
  search : list event -> string -> result (list Tweet);
  page_cells : list event -> result (list Cell);
  login_all : json -> option exn;
  today : list event -> string;
  since : list event -> string
}.

(** State and exceptions. *)
Definition M (A : Type) : Type := World -> result A * World.

Definition ret {A} (a : A) : M A := fun w => (inr a, w).

Definition raise {A} (e : exn) : M A := fun w => (inl e, w).

Definition bind {A B} (m : M A) (k : A -> M B) : M B :=
  fun w => match m w with
           | (inr a, w') => k a w'
           | (inl e, w') => (inl e, w')
           end.

(** [try: m  except Exception as e: h e] *)
Definition try_ {A} (m : M A) (h : exn -> M A) : M A :=
  fun w => match m w with
           | (inr a, w') => (inr a, w')
           | (inl e, w') => h e w'
           end.

Definition lift {A} (r : result A) : M A := fun w => (r, w).

Notation "x <- m ;; k" := (bind m (fun x => k))
  (at level 100, m at next level, right associativity).
Notation "m ;;; k" := (bind m (fun _ => k))
  (at level 100, right associativity).

Definition log (ev : event) (w : World) : World :=
  {| objs := objs w; trace := trace w ++ [ev] |}.

Section Store.
Context (env : Env).

Definition get_object (bucket key : string) : M body :=
  fun w =>
    let w' := log (EvGet bucket key) w in
    match s3_fault env (trace w) (EvGet bucket key) with
    | Some e => (inl e, w')
    | None =>
        match objs w !! (bucket, key) with
        | Some b => (inr b, w')
        | None => (inl NoSuchKey, w')
        end
    end.

Definition put_object (bucket key : string) (content : body) : M unit :=
  fun w =>
    let ev := EvPut bucket key content in
    match s3_fault env (trace w) ev with
    | Some e => (inl e, log ev w)
    | None =>
        (inr tt, {| objs := <[(bucket, key) := content]> (objs w);
                    trace := trace w ++ [ev] |})
    end.

Definition delete_object (bucket key : string) : M unit :=
  fun w =>
    let ev := EvDelete bucket key in
    match s3_fault env (trace w) ev with
    | Some e => (inl e, log ev w)
    | None =>
        (inr tt, {| objs := delete (bucket, key) (objs w);
                    trace := trace w ++ [ev] |})
    end.

(** [json.loads(obj["Body"].read().decode("utf-8"))] *)
Definition json_loads (b : body) : result json :=
  match b with
  | BJson doc => inr doc
  | BRaw _ => inl JSONDecodeError
  end.

End Store.

(** ** enrichment_lambda.py *)

Module enrichment_lambda.

Record S3Record : Type := {
  bucket_name : string;     (* record["s3"]["bucket"]["name"] *)
  object_key : string       (* record["s3"]["object"]["key"]  *)
}.

(** The trigger payload; [Records] is [None] when the field is absent. *)
Record LambdaEvent : Type := { Records : option (list S3Record) }.

(** The text of a post: the first candidate field that is true, stripped. *)
Definition tweet_text (tw : json) : result string :=
  match tw with
  | JObj d =>
      match Py.or_ (Py.get d "content" JNull)
              (Py.or_ (Py.get d "text" JNull)
                 (Py.or_ (Py.get d "rawContent" JNull)
                    (Py.or_ (Py.get d "full_text" JNull) (JStr "")))) with
      | JStr s => inr (PyStr.strip PyStr.is_space s)
      | _ => inl (AttributeError "strip")
      end
  | _ => inl (AttributeError "get")
  end.

(** [tw["sentiment"] = label; tw["sentiment_score"] = score] *)
Definition set_sentiment (tw : json) (ls : json * Q) : json :=
  match tw with
  | JObj d =>
      JObj (Py.set (Py.set d "sentiment" (fst ls)) "sentiment_score"
              (JNum (snd ls)))
  | _ => tw
  end.

(** Does the key pass the two checks of the handler? *)
Definition key_accepted (key : string) : bool :=
  PyStr.endswith key "/data.json"
  && (let parts := PyStr.split "/" key in
      (length parts =? 4)%nat && String.eqb (nth 0 parts "") "tweets").

Definition ticker_of (key : string) : string :=
  PyStr.rsplit1_head "." (nth 1 (PyStr.split "/" key) "").

Definition date_of (key : string) : string :=
  PyStr.split1_last "=" (nth 2 (PyStr.split "/" key) "").

Definition dest_key_of (key : string) : string :=
  ticker_of key +:+ "-" +:+ date_of key +:+ ".json".

Section Handler.
Context (lib : PyLib) (env : Env).

Definition invoke_endpoint (text : string) : M json :=
  fun w => (infer env (trace w) text, log (EvInvoke text) w).

(** The body of the loop over the posts of one file. *)
Definition enrich_tweet (tw : json) : M json :=
  text <- lift (tweet_text tw) ;;
  if String.eqb text "" then ret (set_sentiment tw sentinel)
  else
    let text := PyStr.take MAX_CHARS text in
    try_ (resp <- invoke_endpoint text ;;
          ls <- lift (_pick_best_label lib resp) ;;
          ret (set_sentiment tw ls))
         (fun model_err => ret (set_sentiment tw sentinel)).

Fixpoint enrich_each (tweets : list json) : M (list json) :=
  match tweets with
  | [] => ret []
  | tw :: rest =>
      tw' <- enrich_tweet tw ;;
      rest' <- enrich_each rest ;;
      ret (tw' :: rest')
  end.

(** [len(tweets)] and then the loop, on whatever the file decoded to:
    a list is enriched item by item; a dictionary or a string has a
    length and is iterated by keys or by characters, which are strings
    and have no [get]; nothing else has a length. The value that is
    then written is [tweets] itself. *)
Definition enrich_all (tweets : json) : M json :=
  match tweets with
  | JArr l => l' <- enrich_each l ;; ret (JArr l')
  | JObj d =>
      enrich_each (map (fun kv => JStr (fst kv)) d) ;;; ret (JObj d)
  | JStr s =>
      enrich_each (map (fun c => JStr (String c EmptyString))
                     (list_ascii_of_string s)) ;;; ret (JStr s)
  | _ => raise TypeError
  end.

(** The body of the [try] for one accepted key. *)
Definition process_file (bucket key : string) : M unit :=
  obj_data <- get_object env bucket key ;;
  tweets <- lift (json_loads obj_data) ;;
  enriched <- enrich_all tweets ;;
  put_object env DEST_BUCKET (dest_key_of key) (BJson enriched) ;;;
  delete_object env bucket key.

Definition handle_record (record : S3Record)
  (processed : list string) (failed : list (string * exn))
  : M (list string * list (string * exn)) :=
  let bucket := bucket_name record in
  let key := unquote_plus lib (object_key record) in
  if negb (PyStr.endswith key "/data.json") then ret (processed, failed)
  else
    let parts := PyStr.split "/" key in
    if negb (length parts =? 4)%nat
       || negb (String.eqb (nth 0 parts "") "tweets")
    then ret (processed, failed)
    else
      try_ (process_file bucket key ;;; ret (processed ++ [key], failed))
           (fun e => ret (processed, failed ++ [(key, e)])).

Fixpoint handle_records (records : list S3Record)
  (processed : list string) (failed : list (string * exn))
  : M (list string * list (string * exn)) :=
  match records with
  | [] => ret (processed, failed)
  | record :: rest =>
      lists <- handle_record record processed failed ;;
      handle_records rest (fst lists) (snd lists)
  end.

(** Returns [(processed, failed)], the two lists of the reply. *)
Definition lambda_handler (event : LambdaEvent)
  : M (list string * list (string * exn)) :=
  handle_records (match Records event with Some l => l | None => [] end)
    [] [].

End Handler.

End enrichment_lambda.

(** ** scraping_lambda.py *)

Module scraping_lambda.

Definition S3_BUCKET : string := "reddit-crawler-bucket".
Definition MAX_TWEETS_PER_HASHTAG : nat := 125.
Definition MIN_LIKES : Z := 5.

(** One element of the comprehension of [retrieve_top_hashtags]:
    ['$' + cell.strong.text.strip() if cell.strong else cell.text.strip()],
    where the conditional expression binds weaker than [+]. *)
Definition ticker_of_cell (cell : Cell) : string :=
  match cell_strong cell with
  | Some strong_text => "$" +:+ PyStr.strip PyStr.is_space strong_text
  | None => PyStr.strip PyStr.is_space (cell_text cell)
  end.

Definition tickers_of_cells (code_cells : list Cell) : list string :=
  firstn 30 (map ticker_of_cell code_cells).

Definition is_newline (c : ascii) : bool :=
  Ascii.eqb c "010" || Ascii.eqb c "013".

(** Insertion by decreasing likes that keeps the order of equal keys:
    [sorted(..., key=likeCount, reverse=True)] is stable. *)
Fixpoint insert_by_likes (t : Tweet) (l : list Tweet) : list Tweet :=
  match l with
  | [] => [t]
  | h :: rest =>
      if (tw_likeCount h <=? tw_likeCount t)%Z then t :: h :: rest
      else h :: insert_by_likes t rest
  end.

Definition sorted_by_likes (l : list Tweet) : list Tweet :=
  fold_right insert_by_likes [] l.

Definition top_tweets_of (tweets : list Tweet) : list Tweet :=
  sorted_by_likes
    (List.filter (fun t => (MIN_LIKES <=? tw_likeCount t)%Z) tweets).

(** The fields of the dictionary the scraper stores for a post, and the
    dictionary itself. *)
Record Post : Type := {
  p_id : Z;
  p_ticker : string;
  p_username : string;
  p_display_name : string;
  p_content : string;
  p_created_at : string;
  p_likes : Z;
  p_retweets : Z;
  p_replies : Z;
  p_hashtags : list string;
  p_url : string
}.

Definition post_json (p : Post) : json :=
  JObj [ ("id", JNum (inject_Z (p_id p)));
         ("ticker", JStr (p_ticker p));
         ("username", JStr (p_username p));
         ("display_name", JStr (p_display_name p));
         ("content", JStr (p_content p));
         ("created_at", JStr (p_created_at p));
         ("likes", JNum (inject_Z (p_likes p)));
         ("retweets", JNum (inject_Z (p_retweets p)));
         ("replies", JNum (inject_Z (p_replies p)));
         ("hashtags", JArr (map JStr (p_hashtags p)));
         ("url", JStr (p_url p)) ].

Definition file_name_of (tag : string) : string :=
  PyStr.replace " " "_"
    (PyStr.replace "#" "" (PyStr.strip (PyStr.is_char "$") tag))
  +:+ ".json".

(** [if tweet_dict not in results: results.append(tweet_dict)]; only a
    list supports the test with a dictionary on the left. *)
Definition append_new (results : json) (tweet_dict : json) : result json :=
  match results with
  | JArr l =>
      if Py.elem tweet_dict l then inr (JArr l)
      else inr (JArr (l ++ [tweet_dict]))
  | _ => inl TypeError
  end.

Section Scraper.
Context (lib : PyLib) (env : Env).

Definition retrieve_top_hashtags : M (list string) :=
  fun w => match page_cells env (trace w) with
           | inl e => (inl e, w)
           | inr code_cells => (inr (tickers_of_cells code_cells), w)
           end.

Definition process_tweet_content (tweet : Tweet) : Tweet :=
  {| tw_id := tw_id tweet;
     tw_username := tw_username tweet;
     tw_displayname := replace_emoji lib (tw_displayname tweet);
     tw_rawContent :=
       PyStr.strip PyStr.is_space
         (PyStr.collapse PyStr.is_space
            (PyStr.collapse is_newline
               (replace_emoji lib (tw_rawContent tweet))));
     tw_date := tw_date tweet;
     tw_likeCount := tw_likeCount tweet;
     tw_retweetCount := tw_retweetCount tweet;
     tw_replyCount := tw_replyCount tweet;
     tw_hashtags := tw_hashtags tweet;
     tw_url := tw_url tweet |}.

Definition post_of_tweet (tag : string) (t : Tweet) : Post :=
let cleanTweet := process_tweet_content t in
{| p_id := tw_id cleanTweet;
   p_ticker := tag;
   p_username := tw_username cleanTweet;
   p_display_name := tw_displayname cleanTweet;
   p_content := tw_rawContent cleanTweet;
   p_created_at := tw_date cleanTweet;
   p_likes := tw_likeCount cleanTweet;
   p_retweets := tw_retweetCount cleanTweet;
   p_replies := tw_replyCount cleanTweet;
   p_hashtags := match tw_hashtags cleanTweet with
                 | Some (h :: hs) => h :: hs
                 | _ => []
                 end;
   p_url := tw_url cleanTweet |}.

Definition tweet_dict (tag : string) (t : Tweet) : json :=
post_json (post_of_tweet tag t).

(** The loop [for t in top_tweets] over the posts kept. *)
Fixpoint merge_results (tag : string) (results : json)
  (top_tweets : list Tweet) : result json :=
  match top_tweets with
  | [] => inr results
  | t :: rest =>
      match append_new results (tweet_dict tag t) with
      | inl e => inl e
      | inr results' => merge_results tag results' rest
      end
  end.

Definition load_existing_results (file_name : string) : M json :=
  try_ (obj <- get_object env S3_BUCKET ("tweets/" +:+ file_name) ;;
        lift (json_loads obj))
       (fun e => match e with
                 | NoSuchKey => ret (JArr [])
                 | _ => raise e
                 end).

Definition load_accounts_from_s3 : M json :=
  obj <- get_object env S3_BUCKET "config/accounts.json" ;;
  lift (json_loads obj).

(** The write, and then the [print] of [len(data)]. *)
Definition save_results_to_s3 (file_name : string) (data : json) : M unit :=
  fun w =>
    let key := "tweets/" +:+ file_name +:+ "/date=" +:+ today env (trace w)
               +:+ "/data.json" in
    (put_object env S3_BUCKET key (BJson data) ;;;
     if Py.has_len data then ret tt else raise TypeError) w.

Definition api_search (query : string) : M (list Tweet) :=
  fun w => (search env (trace w) query, log (EvSearch query) w).

(** The body of the loop [for tag in hashtags]. *)
Definition scrape_tag (start_str : string) (tag : string) : M unit :=
  let file_name := file_name_of tag in
  results <- load_existing_results file_name ;;
  let query := tag +:+ " lang:en since:" +:+ start_str in
  tweets <- api_search query ;;
  let top_tweets := top_tweets_of tweets in
  results' <- lift (merge_results tag results top_tweets) ;;
  save_results_to_s3 file_name results'.

Fixpoint scrape_tags (start_str : string) (hashtags : list string) : M unit :=
  match hashtags with
  | [] => ret tt
  | tag :: rest => scrape_tag start_str tag ;;; scrape_tags start_str rest
  end.

Definition run_scraper : M unit :=
  accounts <- load_accounts_from_s3 ;;
  (match login_all env accounts with
   | Some e => raise e
   | None => ret tt
   end) ;;;
  start_str <- (fun w => (inr (since env (trace w)), w)) ;;
  hashtags <- retrieve_top_hashtags ;;
  scrape_tags start_str hashtags.

Definition lambda_handler : M string :=
  run_scraper ;;; ret "success".

End Scraper.

End scraping_lambda.

(** The key pattern as the specification words it, segment by segment:
    four segments, the first [tweets], the third of the form
    [date={date}], the last [data.json]. *)
Definition matches_key_pattern (key : string) : bool :=
  match PyStr.split "/" key with
  | [first; _; partition; last] =>
      String.eqb first "tweets" && String.prefix "date=" partition
      && String.eqb last "data.json"
  | _ => false
  end.

(** The classifier's response as the specification words it: a JSON array
    of [{label, score}] objects, possibly nested one level. *)
Definition well_formed_candidate (p : json) : bool :=
  match p with
  | JObj d =>
      match Py.lookup d "label", Py.lookup d "score" with
      | Some (JStr _), Some (JNum _) => true
      | _, _ => false
      end
  | _ => false
  end.

Definition well_formed_response (r : json) : bool :=
  match r with
  | JArr l =>
      forallb well_formed_candidate l
      || forallb (fun x => match x with
                           | JArr inner => forallb well_formed_candidate inner
                           | _ => false
                           end) l
  | _ => false
  end.

(** The candidate set of a response: the first inner array of a nested
    response, the array itself otherwise. *)
Definition response_candidates (r : json) : list json :=
  match r with
  | JArr (JArr inner :: _) => inner
  | JArr l => l
  | _ => []
  end.

(** An entry that [_pick_best_label] keeps, its label and its score. *)
Definition labelled (p : json) : bool :=
  Py.is_dict p && Py.vcontains p "label".

Definition label_of (p : json) : json := Py.vget p "label" (JStr "unknown").

Definition score_of (p : json) : Q :=
  match Py.as_number (score_key p) with Some q => q | None => 0%Q end.

Definition numeric_score (p : json) : bool :=
  match Py.as_number (score_key p) with Some _ => true | None => false end.

(** What [_pick_best_label] returns once the entry [best] is chosen: its
    label with [float] of its score, or the exception of [float]. *)
Definition selection (lib : PyLib) (best : json) : result (json * Q) :=
  match Py.float_of_number lib (score_of best) with
  | inl e => inl e
  | inr score => inr (label_of best, score)
  end.

(** A post as the enricher expects it: a dictionary whose candidate text
    fields are strings, when they are there and not [null]. *)
Definition text_fields : list string :=
  ["content"; "text"; "rawContent"; "full_text"].

Definition text_field_ok (d : list (string * json)) (k : string) : bool :=
  match Py.lookup d k with
  | None | Some JNull | Some (JStr _) => true
  | Some _ => false
  end.

Definition is_post (tw : json) : bool :=
  match tw with
  | JObj d => forallb (text_field_ok d) text_fields
  | _ => false
  end.

(** A string of whitespace only (or empty), and a candidate text field
    that is missing, [null], empty or whitespace only. *)
Fixpoint all_space (s : string) : bool :=
  match s with
  | EmptyString => true
  | String a s' => PyStr.is_space a && all_space s'
  end.

Definition blank_field (d : list (string * json)) (k : string) : bool :=
  match Py.lookup d k with
  | None | Some JNull => true
  | Some (JStr s) => all_space s
  | Some _ => false
  end.

(** An outside where no store call fails, the endpoint always answers
    [answer], the search finds nothing and the page lists no ticker. *)
Definition quiet_env (answer : json) : Env :=
  {| s3_fault := fun _ _ => None;
     infer := fun _ _ => inr answer;
     search := fun _ _ => inr [];
     page_cells := fun _ => inr [];
     login_all := fun _ => None;
     today := fun _ => "2024-01-01";
     since := fun _ => "2023-12-31_12:00:00_UTC" |}.

(** The same outside, except that every delete is refused by the store. *)
Definition delete_refused_env (answer : json) : Env :=
  {| s3_fault := fun _ ev => match ev with
                             | EvDelete _ _ => Some (ServiceError "AccessDenied")
                             | _ => None
                             end;
     infer := fun _ _ => inr answer;
     search := fun _ _ => inr [];
     page_cells := fun _ => inr [];
     login_all := fun _ => None;
     today := fun _ => "2024-01-01";
     since := fun _ => "2023-12-31_12:00:00_UTC" |}.

(** A discovery page with the given cells, in an outside that is quiet
    otherwise. *)
Definition page_env (cells : list Cell) : Env :=
  {| s3_fault := fun _ _ => None;
     infer := fun _ _ => inr JNull;
     search := fun _ _ => inr [];
     page_cells := fun _ => inr cells;
     login_all := fun _ => None;
     today := fun _ => "2024-01-01";
     since := fun _ => "2023-12-31_12:00:00_UTC" |}.

(** A cell that holds the symbol as plain text, with no [strong] child. *)
Definition bare_cell : Cell := {| cell_strong := None; cell_text := " AAPL " |}.

(** An outside where the search raises for the ticker [$BBB] and finds
    nothing for the others. *)
Definition bbb_fails_env : Env :=
  {| s3_fault := fun _ _ => None;
     infer := fun _ _ => inr JNull;
     search := fun _ query =>
                 if String.prefix "$BBB" query
                 then inl (ServiceError "search failed")
                 else inr [];
     page_cells := fun _ => inr [];
     login_all := fun _ => None;
     today := fun _ => "2024-01-01";
     since := fun _ => "2023-12-31_12:00:00_UTC" |}.

Definition plain_lib : PyLib :=
  {| float_of_str := fun _ => None;
     float_of_int := fun _ => None;
     unquote_plus := fun s => s;
     replace_emoji := fun s => s |}.

Definition empty_world : World := {| objs := ∅; trace := [] |}.

(** One raw partition file with one post, and the notification for it. *)
Definition aapl_key : string := "tweets/AAPL.json/date=2024-01-01/data.json".

Definition aapl_post : json := JObj [("content", JStr "AAPL to the moon")].

Definition aapl_world : World :=
  {| objs := {[ (SOURCE_BUCKET, aapl_key) := BJson (JArr [aapl_post]) ]};
     trace := [] |}.

Definition aapl_event : enrichment_lambda.LambdaEvent :=
  {| enrichment_lambda.Records :=
       Some [ {| enrichment_lambda.bucket_name := SOURCE_BUCKET;
                 enrichment_lambda.object_key := aapl_key |} ] |}.

(** An answer of the endpoint whose only candidate has a [null] label. *)
Definition null_label_answer : json :=
  JArr [JObj [("label", JNull); ("score", JNum (1 # 2))]].

Definition positive_answer : json :=
  JArr [JObj [("label", JStr "positive"); ("score", JNum (9 # 10))]].

(** The keys of a batch that pass the validation, in order. *)
Definition accepted_keys (lib : PyLib)
  (records : list enrichment_lambda.S3Record) : list string :=
  List.filter enrichment_lambda.key_accepted
    (map (fun r => unquote_plus lib (enrichment_lambda.object_key r)) records).

(** No item of the list is equal ([==]) to a later one. *)
Fixpoint no_equal_pair (l : list json) : bool :=
  match l with
  | [] => true
  | x :: rest => negb (existsb (fun y => Py.eq x y) rest) && no_equal_pair rest
  end.

(** The key built from its two free segments. *)
Definition partition_key (ticker_file partition : string) : string :=
  "tweets/" +:+ ticker_file +:+ "/" +:+ partition +:+ "/data.json".

(** The calls the harvest may make: reads and writes in its bucket under
    [tweets/] (a write only at a partition key), and searches. *)
Definition harvest_event (ev : event) : Prop :=
  match ev with
  | EvGet bucket key =>
      bucket = scraping_lambda.S3_BUCKET /\ exists f, key = "tweets/" +:+ f
  | EvPut bucket key _ =>
      bucket = scraping_lambda.S3_BUCKET
      /\ exists f day,
          key = "tweets/" +:+ f +:+ "/date=" +:+ day +:+ "/data.json"
  | EvSearch _ => True
  | _ => False
  end.

Definition is_put (ev : event) : bool :=
  match ev with EvPut _ _ _ => true | _ => false end.

(** A text where every whitespace character is one plain space that is
    followed by a character that is not whitespace; and a text that,
    besides, neither starts nor ends with whitespace. *)
Fixpoint well_spaced (s : string) : bool :=
  match s with
  | EmptyString => true
  | String a s' =>
      (if PyStr.is_space a
       then Ascii.eqb a " "
            && match s' with
               | String b _ => negb (PyStr.is_space b)
               | EmptyString => true
               end
       else true)
      && well_spaced s'
  end.

Definition first_is_space (s : string) : bool :=
  match s with String a _ => PyStr.is_space a | EmptyString => false end.

Fixpoint last_is_space (s : string) : bool :=
  match s with
  | EmptyString => false
  | String a EmptyString => PyStr.is_space a
  | String _ s' => last_is_space s'
  end.

Definition tidy (s : string) : bool :=
  well_spaced s && negb (first_is_space s) && negb (last_is_space s).

(** A call of the endpoint with a text that is not empty and has at most
    [MAX_CHARS] characters. *)
Definition endpoint_call (ev : event) : Prop :=
  match ev with
  | EvInvoke text => text <> "" /\ String.length text <= MAX_CHARS
  | _ => False
  end.

(** A raw file whose second item is not a post (it is a string). *)
Definition mixed_world : World :=
  {| objs := {[ (SOURCE_BUCKET, aapl_key)
                := BJson (JArr [aapl_post; JStr "not a post"]) ]};
     trace := [] |}.

(** An answer of the endpoint with two candidates of the same score. *)
Definition tie_answer : json :=
  JArr [JObj [("label", JStr "positive"); ("score", JNum (1 # 2))];
        JObj [("label", JStr "negative"); ("score", JNum (1 # 2))]].

(** The pair a post gets when its stripped text is [s] and the calls made
    so far are [tr]: the sentinel when the text is empty, when the call
    of the endpoint on the truncated text raises, or when the selection
    raises on the answer; and else the pair selected from the answer. *)
Definition assigned (lib : PyLib) (env : Env) (tr : list event) (s : string)
  (ls : json * Q) : Prop :=
  (s = "" /\ ls = sentinel)
  \/ (s <> ""
      /\ ((exists e,
              infer env tr (PyStr.take MAX_CHARS s) = inl e /\ ls = sentinel)
          \/ (exists resp e,
                 infer env tr (PyStr.take MAX_CHARS s) = inr resp
                 /\ _pick_best_label lib resp = inl e /\ ls = sentinel)
          \/ (exists resp,
                 infer env tr (PyStr.take MAX_CHARS s) = inr resp
                 /\ _pick_best_label lib resp = inr ls))).

(** Two posts of the search, and a stored result set that holds the
    first of them twice. *)
Definition old_tweet : Tweet :=
  {| tw_id := 1; tw_username := "u"; tw_displayname := "U";
     tw_rawContent := "AAPL up"; tw_date := "2024-01-01";
     tw_likeCount := 7; tw_retweetCount := 0; tw_replyCount := 0;
     tw_hashtags := None; tw_url := "https://x.com/u/1" |}.

Definition new_tweet : Tweet :=
  {| tw_id := 2; tw_username := "v"; tw_displayname := "V";
     tw_rawContent := "AAPL down"; tw_date := "2024-01-01";
     tw_likeCount := 9; tw_retweetCount := 1; tw_replyCount := 0;
     tw_hashtags := None; tw_url := "https://x.com/v/2" |}.

Definition stored_twice : list json :=
  [ scraping_lambda.tweet_dict plain_lib "$AAPL" old_tweet;
    scraping_lambda.tweet_dict plain_lib "$AAPL" old_tweet ].

Definition stored_twice_world : World :=
  {| objs := {[ (scraping_lambda.S3_BUCKET, "tweets/AAPL.json")
                := BJson (JArr stored_twice) ]};
     trace := [] |}.

(** How many times a character occurs in a string ([s.count(c)]). *)
Fixpoint count_char (c : ascii) (s : string) : nat :=
  match s with
  | EmptyString => 0
  | String a s' => (if Ascii.eqb a c then 1 else 0) + count_char c s'
  end.

(** * Properties *)

(** ** Strings *)

Lemma app_cons (a : ascii) (s t : string) :
  String a s +:+ t = String a (s +:+ t).
Proof. reflexivity. Qed.

Lemma app_nil_l (t : string) : "" +:+ t = t.
Proof. reflexivity. Qed.

Ltac str_simpl :=
  repeat (rewrite app_cons in * || rewrite app_nil_l in *); simpl in *.

Lemma append_empty_r (s : string) : s +:+ "" = s.
Proof. induction s as [|a s IH]; str_simpl; [reflexivity | now f_equal]. Qed.

Lemma append_assoc (a b c : string) : (a +:+ b) +:+ c = a +:+ (b +:+ c).
Proof. induction a as [|x a IH]; str_simpl; [reflexivity | now f_equal]. Qed.

Ltac str_norm :=
  repeat (rewrite append_assoc || rewrite app_cons || rewrite app_nil_l).

Section StringFacts.
Import PyStr.

Lemma endswith_unfold (s suf : string) :
  endswith s suf =
  if String.eqb s suf then true
  else match s with
       | EmptyString => false
       | String _ s' => endswith s' suf
       end.
Proof. destruct s; reflexivity. Qed.

Lemma endswith_spec (s suf : string) :
  endswith s suf = true <-> exists x, s = x +:+ suf.
Proof.
  induction s as [|a s IH]; rewrite endswith_unfold.
  - destruct (String.eqb_spec "" suf) as [<-|Hne].
    + split; [intros _; now exists "" | reflexivity].
    + split; [discriminate|]. intros [x Hx]. destruct x; str_simpl.
      * congruence.
      * discriminate.
  - destruct (String.eqb_spec (String a s) suf) as [<-|Hne].
    + split; [intros _; now exists "" | reflexivity].
    + rewrite IH. split.
      * intros [x ->]. now exists (String a x).
      * intros [x Hx]. destruct x as [|b x]; str_simpl.
        -- congruence.
        -- injection Hx as _ ->. now exists x.
Qed.

Lemma split_not_nil (c : ascii) (s : string) : split c s <> [].
Proof.
  destruct s as [|a s]; simpl; [discriminate|].
  destruct (Ascii.eqb a c); [discriminate|].
  destruct (split c s); discriminate.
Qed.

Lemma split_app (c : ascii) (x y : string) :
  split c (x +:+ String c y) = split c x ++ split c y.
Proof.
  induction x as [|a x IH]; str_simpl.
  - now rewrite Ascii.eqb_refl.
  - destruct (Ascii.eqb a c); [now rewrite IH|].
    rewrite IH. pose proof (split_not_nil c x) as Hx.
    destruct (split c x); [congruence | reflexivity].
Qed.

Lemma split_without (c : ascii) (s : string) :
  has_char c s = false -> split c s = [s].
Proof.
  induction s as [|a s IH]; simpl; [reflexivity|].
  destruct (Ascii.eqb a c); simpl; [discriminate|].
  intros H. now rewrite (IH H).
Qed.

Lemma split_parts_without (c : ascii) (s : string) :
  Forall (fun p => has_char c p = false) (split c s).
Proof.
  induction s as [|a s IH]; simpl.
  - now repeat constructor.
  - destruct (Ascii.eqb a c) eqn:E.
    + now constructor.
    + pose proof (split_not_nil c s) as Hs.
      destruct (split c s) as [|h t]; [congruence|].
      inversion IH as [|? ? Hh Ht]; subst. constructor; [|assumption].
      simpl. now rewrite E.
Qed.

Lemma join_split (c : ascii) (s : string) : join c (split c s) = s.
Proof.
  induction s as [|a s IH]; simpl; [reflexivity|].
  pose proof (split_not_nil c s) as Hs.
  destruct (Ascii.eqb_spec a c) as [->|Hne].
  - destruct (split c s) as [|h t]; [congruence|].
    simpl in *. now rewrite IH.
  - destruct (split c s) as [|h t]; [congruence|].
    destruct t; simpl in *; rewrite <- IH; reflexivity.
Qed.

Lemma cut_first_without (c : ascii) (s : string) :
  has_char c s = false -> cut_first c s = None.
Proof.
  induction s as [|a s IH]; simpl; [reflexivity|].
  destruct (Ascii.eqb a c); simpl; [discriminate|].
  intros H. now rewrite (IH H).
Qed.

Lemma cut_first_at (c : ascii) (h t : string) :
  has_char c h = false -> cut_first c (h +:+ String c t) = Some (h, t).
Proof.
  induction h as [|a h IH]; str_simpl.
  - now rewrite Ascii.eqb_refl.
  - destruct (Ascii.eqb a c); simpl; [discriminate|].
    intros H. now rewrite (IH H).
Qed.

Lemma cut_last_without (c : ascii) (s : string) :
  has_char c s = false -> cut_last c s = None.
Proof.
  induction s as [|a s IH]; simpl; [reflexivity|].
  destruct (Ascii.eqb a c); simpl; [discriminate|].
  intros H. now rewrite (IH H).
Qed.

Lemma cut_last_at (c : ascii) (h t : string) :
  has_char c t = false -> cut_last c (h +:+ String c t) = Some (h, t).
Proof.
  intros Ht. induction h as [|a h IH]; str_simpl.
  - rewrite (cut_last_without _ _ Ht). now rewrite Ascii.eqb_refl.
  - now rewrite IH.
Qed.

End StringFacts.

(** ** Validation of the key (enrichment) *)

Section KeyValidation.
Import PyStr enrichment_lambda.

Lemma split_partition_key (ticker_file partition : string) :
  has_char "/" ticker_file = false ->
  has_char "/" partition = false ->
  split "/" (partition_key ticker_file partition)
  = ["tweets"; ticker_file; partition; "data.json"].
Proof.
  intros Ht Hp.
  change (partition_key ticker_file partition)
    with ("tweets" +:+ String "/" (ticker_file +:+ String "/"
            (partition +:+ String "/" "data.json"))).
  rewrite !split_app, (split_without _ _ Ht), (split_without _ _ Hp).
  reflexivity.
Qed.

Lemma partition_key_endswith (ticker_file partition : string) :
  endswith (partition_key ticker_file partition) "/data.json" = true.
Proof.
  apply endswith_spec.
  exists ("tweets/" +:+ ticker_file +:+ "/" +:+ partition).
  unfold partition_key. now rewrite !append_assoc.
Qed.

Lemma key_accepted_iff (key : string) :
  key_accepted key = true <->
  exists ticker_file partition,
    has_char "/" ticker_file = false /\ has_char "/" partition = false
    /\ key = partition_key ticker_file partition.
Proof.
  unfold key_accepted. split.
  - intros H. apply andb_true_iff in H as [Hend H].
    apply andb_true_iff in H as [Hlen Hfirst].
    apply endswith_spec in Hend as [x ->].
    change (x +:+ "/data.json") with (x +:+ String "/" "data.json") in *.
    rewrite split_app in Hlen, Hfirst.
    pose proof (join_split "/" x) as Hjoin.
    pose proof (split_parts_without "/" x) as Hparts.
    destruct (split "/" x) as [|a [|b [|c [|d l]]]]; simpl in Hlen;
      try discriminate; [|destruct l; discriminate].
    simpl in Hfirst. apply String.eqb_eq in Hfirst. subst a.
    inversion Hparts as [|? ? _ Hbc]; subst.
    inversion Hbc as [|? ? Hb Hc']; subst.
    inversion Hc' as [|? ? Hc _]; subst.
    exists b, c. repeat split; try assumption.
    unfold partition_key. simpl. str_norm. reflexivity.
  - intros (t & d & Ht & Hd & ->).
    rewrite partition_key_endswith, (split_partition_key _ _ Ht Hd).
    reflexivity.
Qed.

Lemma rsplit1_head_ext (stem ext : string) :
  has_char "." ext = false -> rsplit1_head "." (stem +:+ "." +:+ ext) = stem.
Proof.
  intros H. unfold rsplit1_head.
  change (stem +:+ "." +:+ ext) with (stem +:+ String "." ext).
  now rewrite (cut_last_at _ _ _ H).
Qed.

Lemma split1_last_value (name value : string) :
  has_char "=" name = false -> split1_last "=" (name +:+ "=" +:+ value) = value.
Proof.
  intros H. unfold split1_last.
  change (name +:+ "=" +:+ value) with (name +:+ String "=" value).
  now rewrite (cut_first_at _ _ _ H).
Qed.

Lemma handle_record_skips (lib : PyLib) (env : Env) (record : S3Record)
  (processed : list string) (failed : list (string * exn)) (w : World) :
  key_accepted (unquote_plus lib (object_key record)) = false ->
  handle_record lib env record processed failed w = (inr (processed, failed), w).
Proof.
  unfold key_accepted, handle_record. intros H.
  destruct (endswith _ _); simpl in *; [|reflexivity].
  destruct (length _ =? 4)%nat; simpl in *; [|reflexivity].
  destruct (String.eqb _ _); simpl in *; [discriminate | reflexivity].
Qed.

Lemma handle_record_accepts (lib : PyLib) (env : Env) (record : S3Record)
  (processed : list string) (failed : list (string * exn)) :
  key_accepted (unquote_plus lib (object_key record)) = true ->
  handle_record lib env record processed failed
  = try_ (process_file lib env (bucket_name record)
            (unquote_plus lib (object_key record)) ;;;
          ret (processed ++ [unquote_plus lib (object_key record)], failed))
         (fun e => ret (processed,
                        failed ++ [(unquote_plus lib (object_key record), e)])).
Proof.
  unfold key_accepted, handle_record. intros H.
  destruct (endswith _ _); simpl in *; [|discriminate].
  destruct (length _ =? 4)%nat; simpl in *; [|discriminate].
  destruct (String.eqb _ _); simpl in *; [reflexivity | discriminate].
Qed.

End KeyValidation.

(** C2, as the handler has it. A decoded key is accepted exactly when it
    is [tweets/{ticker_file}/{partition}/data.json] with no [/] inside
    [ticker_file] and [partition]: four segments, the first [tweets], the
    last [data.json], the third one free. The ticker is what stands before
    the last [.] of the second segment (the whole segment when it has no
    [.]), the date is what follows the first [=] of the third segment (the
    whole segment when it has no [=]). A key that is not accepted leaves
    the two lists and the outside world as they were. The three keys of
    the specification are treated as it says. *)
Theorem key_validation :
  (forall key,
      enrichment_lambda.key_accepted key = true <->
      exists ticker_file partition,
        PyStr.has_char "/" ticker_file = false
        /\ PyStr.has_char "/" partition = false
        /\ key = partition_key ticker_file partition)
  /\ (forall ticker_file partition,
         PyStr.has_char "/" ticker_file = false ->
         PyStr.has_char "/" partition = false ->
         enrichment_lambda.ticker_of (partition_key ticker_file partition)
         = PyStr.rsplit1_head "." ticker_file
         /\ enrichment_lambda.date_of (partition_key ticker_file partition)
            = PyStr.split1_last "=" partition)
  /\ (forall stem ext,
         PyStr.has_char "." ext = false ->
         PyStr.rsplit1_head "." (stem +:+ "." +:+ ext) = stem)
  /\ (forall ticker_file,
         PyStr.has_char "." ticker_file = false ->
         PyStr.rsplit1_head "." ticker_file = ticker_file)
  /\ (forall name date,
         PyStr.has_char "=" name = false ->
         PyStr.split1_last "=" (name +:+ "=" +:+ date) = date)
  /\ (forall partition,
         PyStr.has_char "=" partition = false ->
         PyStr.split1_last "=" partition = partition)
  /\ (forall lib env record processed failed w,
         enrichment_lambda.key_accepted
           (unquote_plus lib (enrichment_lambda.object_key record)) = false ->
         enrichment_lambda.handle_record lib env record processed failed w
         = (inr (processed, failed), w))
  /\ (enrichment_lambda.key_accepted
        "tweets/AAPL.json/date=2024-01-01/data.json" = true
      /\ enrichment_lambda.ticker_of
           "tweets/AAPL.json/date=2024-01-01/data.json" = "AAPL"
      /\ enrichment_lambda.date_of
           "tweets/AAPL.json/date=2024-01-01/data.json" = "2024-01-01"
      /\ enrichment_lambda.dest_key_of
           "tweets/AAPL.json/date=2024-01-01/data.json" = "AAPL-2024-01-01.json"
      /\ enrichment_lambda.key_accepted "other/AAPL.json/data.json" = false
      /\ enrichment_lambda.key_accepted
           "tweets/AAPL.json/date=2024-01-01/notdata.json" = false).
Proof.
  split; [exact key_accepted_iff|].
  split.
  { intros t d Ht Hd.
    unfold enrichment_lambda.ticker_of, enrichment_lambda.date_of.
    now rewrite (split_partition_key _ _ Ht Hd). }
  split; [exact rsplit1_head_ext|].
  split.
  { intros t Ht. unfold PyStr.rsplit1_head.
    now rewrite (cut_last_without _ _ Ht). }
  split; [exact split1_last_value|].
  split.
  { intros d Hd. unfold PyStr.split1_last.
    now rewrite (cut_first_without _ _ Hd). }
  split; [exact handle_record_skips|].
  repeat split; reflexivity.
Qed.

(** C2, the gap: a key with four segments, [tweets] first and [data.json]
    last, is accepted although its third segment is not of the form
    [date={date}]; the whole segment is then taken as the date. *)
Lemma key_without_date_prefix_accepted :
  enrichment_lambda.key_accepted "tweets/AAPL.json/2024-01-01/data.json" = true
  /\ matches_key_pattern "tweets/AAPL.json/2024-01-01/data.json" = false
  /\ enrichment_lambda.date_of "tweets/AAPL.json/2024-01-01/data.json"
     = "2024-01-01".
Proof. repeat split; reflexivity. Qed.

(** ** Selection of the label (enrichment) *)

Section PickBestLabel.
Context (lib : PyLib).

Lemma Qgtb_true (x y : Q) : Py.Qgtb x y = true -> (y < x)%Q.
Proof.
  unfold Py.Qgtb. intros H. apply negb_true_iff in H.
  apply Qnot_le_lt. intros Hle. apply Qle_bool_iff in Hle. congruence.
Qed.

Lemma Qgtb_false (x y : Q) : Py.Qgtb x y = false -> (x <= y)%Q.
Proof.
  unfold Py.Qgtb. intros H. apply negb_false_iff in H.
  now apply Qle_bool_iff.
Qed.

Lemma gt_numeric (a b : json) :
  numeric_score a = true -> numeric_score b = true ->
  Py.gt (score_key a) (score_key b) = inr (Py.Qgtb (score_of a) (score_of b)).
Proof.
  unfold numeric_score, score_of, Py.gt.
  destruct (Py.as_number (score_key a)); [|discriminate].
  destruct (Py.as_number (score_key b)); [|discriminate].
  reflexivity.
Qed.

Lemma float_numeric (p : json) :
  numeric_score p = true ->
  Py.float lib (score_key p) = Py.float_of_number lib (score_of p).
Proof.
  unfold numeric_score, score_of.
  destruct (score_key p) as [| b | q | | |]; simpl; try discriminate;
    [now destruct b | reflexivity].
Qed.

Lemma selection_exact (p : json) :
  Py.is_exact_float (score_of p) = true ->
  selection lib p = inr (label_of p, score_of p).
Proof.
  unfold selection, Py.float_of_number, Py.is_exact_float.
  destruct (Py.as_integer (score_of p)); [|reflexivity].
  now intros ->.
Qed.

(** The running maximum ends on an item of the list that no item beats. *)
Lemma max_from_numeric (items : list json) :
  forall best0,
    numeric_score best0 = true ->
    forallb numeric_score items = true ->
    exists best,
      Py.max_from score_key best0 items = inr best
      /\ In best (best0 :: items)
      /\ numeric_score best = true
      /\ forall p, In p (best0 :: items) -> (score_of p <= score_of best)%Q.
Proof.
  induction items as [|x rest IH]; intros best0 H0 Hall; simpl.
  - exists best0. repeat split; auto.
    intros p [<-|[]]. apply Qle_refl.
  - simpl in Hall. apply andb_true_iff in Hall as [Hx Hrest].
    rewrite (gt_numeric _ _ Hx H0).
    destruct (Py.Qgtb (score_of x) (score_of best0)) eqn:E.
    + destruct (IH x Hx Hrest) as (best & Hm & Hin & Hn & Hmax).
      exists best. split; [assumption|]. split.
      { destruct Hin as [<-|Hin]; simpl; auto. }
      split; [assumption|].
      intros p [<-|[<-|Hp]].
      * apply Qle_trans with (score_of x).
        -- apply Qlt_le_weak. now apply Qgtb_true.
        -- apply Hmax. now left.
      * apply Hmax. now left.
      * apply Hmax. now right.
    + destruct (IH best0 H0 Hrest) as (best & Hm & Hin & Hn & Hmax).
      exists best. split; [assumption|]. split.
      { destruct Hin as [<-|Hin]; simpl; auto. }
      split; [assumption|].
      intros p [<-|[<-|Hp]].
      * apply Hmax. now left.
      * apply Qle_trans with (score_of best0).
        -- now apply Qgtb_false.
        -- apply Hmax. now left.
      * apply Hmax. now right.
Qed.

(** What the function does once the kept entries are known. *)
Lemma pick_on_kept (r : json) (preds : list json) :
  candidates r = Some (List.filter labelled preds) ->
  List.filter labelled preds <> [] ->
  forallb numeric_score (List.filter labelled preds) = true ->
  exists best,
    _pick_best_label lib r = selection lib best
    /\ In best preds /\ labelled best = true
    /\ forall p, In p preds -> labelled p = true ->
                 (score_of p <= score_of best)%Q.
Proof.
  intros Hc Hne Hnum. unfold _pick_best_label, selection. rewrite Hc.
  destruct (List.filter labelled preds) as [|p0 kept] eqn:Hk; [congruence|].
  simpl in Hnum. apply andb_true_iff in Hnum as [H0 Hrest].
  destruct (max_from_numeric kept p0 H0 Hrest) as (best & Hm & Hin & Hn & Hmax).
  rewrite Hm, (float_numeric _ Hn).
  assert (Hsub : forall p, In p (p0 :: kept) <-> In p preds /\ labelled p = true).
  { intros p. rewrite <- Hk. apply filter_In. }
  exists best. split; [reflexivity|].
  apply Hsub in Hin as [Hin Hl]. repeat split; auto.
  intros p Hp Hlp. apply Hmax. apply Hsub. auto.
Qed.

Lemma wf_candidate_labelled (p : json) :
  well_formed_candidate p = true -> labelled p = true /\ numeric_score p = true.
Proof.
  destruct p as [| | | | |d]; simpl; try discriminate.
  unfold labelled, numeric_score, score_key, Py.vcontains, Py.contains,
    Py.vget, Py.get. simpl.
  destruct (Py.lookup d "label") as [[]|]; try discriminate.
  destruct (Py.lookup d "score") as [[]|]; try discriminate. auto.
Qed.

Lemma filter_all {A} (f : A -> bool) (l : list A) :
  forallb f l = true -> List.filter f l = l.
Proof.
  induction l as [|x l IH]; simpl; [reflexivity|].
  intros Hall. apply andb_true_iff in Hall as [Hx Hl].
  now rewrite Hx, IH.
Qed.

Lemma filter_none {A} (f : A -> bool) (l : list A) :
  forallb (fun x => negb (f x)) l = true -> List.filter f l = [].
Proof.
  induction l as [|x l IH]; simpl; [reflexivity|].
  intros Hall. apply andb_true_iff in Hall as [Hx Hl].
  apply negb_true_iff in Hx. rewrite Hx. now apply IH.
Qed.

End PickBestLabel.

Lemma candidates_unfold (r : json) :
  candidates r =
  match r with
  | JArr (_ :: _) => Some (List.filter labelled (response_candidates r))
  | _ => None
  end.
Proof.
  destruct r as [| | | |l|]; try reflexivity.
  destruct l as [|first others]; [reflexivity|].
  destruct first; reflexivity.
Qed.

Lemma pick_without_labelled (lib : PyLib) (r : json) :
  List.filter labelled (response_candidates r) = [] ->
  _pick_best_label lib r = inr sentinel.
Proof.
  intros H. unfold _pick_best_label. rewrite candidates_unfold, H.
  destruct r as [| | | |l|]; try reflexivity.
  destruct l; reflexivity.
Qed.

Lemma well_formed_response_candidates (r : json) :
  well_formed_response r = true ->
  forallb well_formed_candidate (response_candidates r) = true.
Proof.
  destruct r as [| | | |l|]; simpl; try discriminate.
  destruct l as [|first others]; [reflexivity|].
  intros H. apply orb_true_iff in H as [H|H].
  - destruct first; try exact H.
    simpl in H. discriminate.
  - simpl in H. apply andb_true_iff in H as [H _].
    destruct first; try discriminate. exact H.
Qed.

Lemma float_of_large_int (lib : PyLib) (n : Z) :
  (2 ^ 53 < Z.abs n)%Z ->
  Py.float_of_number lib (inject_Z n)
  = match float_of_int lib n with
    | Some f => inr f
    | None => inl OverflowError
    end.
Proof.
  intros Hn. unfold Py.float_of_number, Py.as_integer, inject_Z.
  cbn [Qnum Qden]. rewrite Z.mod_1_r, Z.div_1_r. cbn [Z.eqb].
  apply Z.leb_gt in Hn. now rewrite Hn.
Qed.

(** C6, as the function has it. Among the candidates of the response (the
    first inner array when the response is nested, else the array
    itself), the entries that are objects with a [label] are kept; when
    the kept entries have numbers for scores (a missing score counts as
    0.0), the function chooses a kept entry that no kept entry beats and
    returns its label with [float] of its score: the score itself when it
    is a float or an integer of magnitude up to 2^53, and else the
    rounded integer, or [OverflowError] when the integer is out of the
    range of the floats. For a well-formed response that is not empty the
    entry chosen is the candidate of maximum score, and the response of
    the specification gives ["neg"] with 0.9. The sentinel is returned
    whenever no entry is kept: the response is not an array, is empty, or
    holds no object with a [label]. *)
Theorem pick_best_label_selects (lib : PyLib) :
  (forall r,
      List.filter labelled (response_candidates r) <> [] ->
      forallb numeric_score (List.filter labelled (response_candidates r))
      = true ->
      exists best,
        _pick_best_label lib r = selection lib best
        /\ (Py.is_exact_float (score_of best) = true ->
            _pick_best_label lib r = inr (label_of best, score_of best))
        /\ In best (response_candidates r) /\ labelled best = true
        /\ forall p, In p (response_candidates r) -> labelled p = true ->
                     (score_of p <= score_of best)%Q)
  /\ (forall r,
         well_formed_response r = true -> response_candidates r <> [] ->
         exists best,
           _pick_best_label lib r = selection lib best
           /\ (Py.is_exact_float (score_of best) = true ->
               _pick_best_label lib r = inr (label_of best, score_of best))
           /\ In best (response_candidates r)
           /\ forall p, In p (response_candidates r) ->
                        (score_of p <= score_of best)%Q)
  /\ (forall r,
         (forall p, In p (response_candidates r) -> labelled p = false) ->
         _pick_best_label lib r = inr sentinel)
  /\ _pick_best_label lib
       (JArr [JObj [("label", JStr "pos"); ("score", JNum (3 # 10))];
              JObj [("label", JStr "neg"); ("score", JNum (9 # 10))]])
     = inr (JStr "neg", (9 # 10)%Q)
  /\ (forall n,
         (2 ^ 53 < Z.abs n)%Z ->
         _pick_best_label lib
           (JArr [JObj [("label", JStr "pos"); ("score", JNum (inject_Z n))]])
         = match float_of_int lib n with
           | Some f => inr (JStr "pos", f)
           | None => inl OverflowError
           end).
Proof.
  assert (Hgen : forall r,
      List.filter labelled (response_candidates r) <> [] ->
      forallb numeric_score (List.filter labelled (response_candidates r))
      = true ->
      exists best,
        _pick_best_label lib r = selection lib best
        /\ (Py.is_exact_float (score_of best) = true ->
            _pick_best_label lib r = inr (label_of best, score_of best))
        /\ In best (response_candidates r) /\ labelled best = true
        /\ forall p, In p (response_candidates r) -> labelled p = true ->
                     (score_of p <= score_of best)%Q).
  { intros r Hne Hnum.
    destruct (pick_on_kept lib r (response_candidates r))
      as (best & Hpick & Hrest); try assumption.
    - rewrite candidates_unfold.
      destruct r as [| | | |l|]; try (simpl in Hne; congruence).
      destruct l; [simpl in Hne; congruence | reflexivity].
    - exists best. split; [exact Hpick|]. split; [|exact Hrest].
      intros Hex. rewrite Hpick. now apply selection_exact. }
  split; [exact Hgen|]. split; [|split; [|split; [reflexivity|]]].
  - intros r Hwf Hne.
    pose proof (well_formed_response_candidates r Hwf) as Hall.
    assert (Hlab : forallb labelled (response_candidates r) = true).
    { apply forallb_forall. intros p Hp.
      rewrite forallb_forall in Hall. now apply wf_candidate_labelled, Hall. }
    assert (Hnum : forallb numeric_score (response_candidates r) = true).
    { apply forallb_forall. intros p Hp.
      rewrite forallb_forall in Hall. now apply wf_candidate_labelled, Hall. }
    destruct (Hgen r) as (best & Hpick & Hexact & Hin & _ & Hmax).
    + now rewrite (filter_all _ _ Hlab).
    + now rewrite (filter_all _ _ Hlab).
    + exists best. split; [exact Hpick|]. split; [exact Hexact|].
      split; [exact Hin|].
      intros p Hp. apply Hmax; [assumption|].
      rewrite forallb_forall in Hlab. now apply Hlab.
  - intros r Hnone. apply pick_without_labelled.
    apply filter_none. apply forallb_forall. intros p Hp.
    now rewrite (Hnone p Hp).
  - intros n Hn. unfold _pick_best_label. simpl candidates.
    cbv iota. simpl Py.max_from. cbv iota.
    change (Py.float lib (score_key
              (JObj [("label", JStr "pos"); ("score", JNum (inject_Z n))])))
      with (Py.float_of_number lib (inject_Z n)).
    rewrite (float_of_large_int lib n Hn).
    destruct (float_of_int lib n); reflexivity.
Qed.

(** C6, the gap: a candidate set can be malformed and still not give the
    sentinel. A lone candidate without a score is returned with 0.0, and
    a lone candidate whose score is [null] makes the function raise. *)
Lemma malformed_candidates_without_sentinel :
  well_formed_response (JArr [JObj [("label", JStr "pos")]]) = false
  /\ (forall lib,
         _pick_best_label lib (JArr [JObj [("label", JStr "pos")]])
         = inr (JStr "pos", 0%Q))
  /\ (JStr "pos", 0%Q) <> sentinel
  /\ well_formed_response
       (JArr [JObj [("label", JStr "pos"); ("score", JNull)]]) = false
  /\ (forall lib,
         _pick_best_label lib
           (JArr [JObj [("label", JStr "pos"); ("score", JNull)]])
         = inl TypeError).
Proof. repeat split; try reflexivity. discriminate. Qed.

(** ** Merging the posts of a ticker (scraper) *)

Section Merge.
Import scraping_lambda.
Context (lib : PyLib).

Lemma eq_arr_cons (x y : json) (l l' : list json) :
  Py.eq (JArr (x :: l)) (JArr (y :: l')) = Py.eq x y && Py.eq (JArr l) (JArr l').
Proof. reflexivity. Qed.

Lemma eq_strings (h1 h2 : list string) :
  Py.eq (JArr (map JStr h1)) (JArr (map JStr h2)) = true <-> h1 = h2.
Proof.
  revert h2. induction h1 as [|a h1 IH]; intros [|b h2]; simpl map;
    try (split; [discriminate | congruence]); [easy|].
  rewrite eq_arr_cons, andb_true_iff, IH. simpl. rewrite String.eqb_eq.
  split; [intros [-> ->]; reflexivity | intros [= -> ->]; auto].
Qed.

Lemma eq_ints (a b : Z) :
  Py.eq (JNum (inject_Z a)) (JNum (inject_Z b)) = true <-> a = b.
Proof.
  simpl. unfold Qeq_bool. simpl. rewrite Z.eqb_eq. lia.
Qed.

Lemma eq_strs (a b : string) : Py.eq (JStr a) (JStr b) = true <-> a = b.
Proof. simpl. apply String.eqb_eq. Qed.

(** Two stored posts are equal for Python exactly when all their fields
    are. *)
Lemma eq_post_json (p q : Post) :
  Py.eq (post_json p) (post_json q) = true <-> p = q.
Proof.
  destruct p as [i1 t1 u1 d1 c1 k1 l1 r1 y1 h1 w1].
  destruct q as [i2 t2 u2 d2 c2 k2 l2 r2 y2 h2 w2].
  unfold post_json. cbn [p_id p_ticker p_username p_display_name p_content
    p_created_at p_likes p_retweets p_replies p_hashtags p_url].
  change (Py.eq (JObj ?a) (JObj ?b)) with
    (Py.eq (JNum (inject_Z i1)) (JNum (inject_Z i2))
     && (Py.eq (JStr t1) (JStr t2)
     && (Py.eq (JStr u1) (JStr u2)
     && (Py.eq (JStr d1) (JStr d2)
     && (Py.eq (JStr c1) (JStr c2)
     && (Py.eq (JStr k1) (JStr k2)
     && (Py.eq (JNum (inject_Z l1)) (JNum (inject_Z l2))
     && (Py.eq (JNum (inject_Z r1)) (JNum (inject_Z r2))
     && (Py.eq (JNum (inject_Z y1)) (JNum (inject_Z y2))
     && (Py.eq (JArr (map JStr h1)) (JArr (map JStr h2))
     && (Py.eq (JStr w1) (JStr w2) && true))))))))))).
  rewrite !andb_true_iff, !eq_ints, !eq_strs, eq_strings.
  split.
  - intros (-> & -> & -> & -> & -> & -> & -> & -> & -> & -> & -> & _).
    reflexivity.
  - intros [= -> -> -> -> -> -> -> -> -> -> ->]. repeat split.
Qed.

Lemma elem_In (x : json) (l : list json) :
  In x l -> Py.eq x x = true -> Py.elem x l = true.
Proof.
  intros Hin Hx. unfold Py.elem. apply existsb_exists. now exists x.
Qed.

Lemma no_equal_pair_snoc (l : list json) (x : json) :
  no_equal_pair (l ++ [x]) = no_equal_pair l && negb (Py.elem x l).
Proof.
  unfold Py.elem. induction l as [|a l IH]; simpl; [reflexivity|].
  rewrite existsb_app, IH. simpl.
  destruct (existsb (fun y => Py.eq a y) l), (Py.eq a x), (no_equal_pair l),
    (existsb (fun y => Py.eq y x) l); reflexivity.
Qed.

(** What the loop over the posts kept does to a stored list. *)
Lemma merge_results_appends (tag : string) (top_tweets : list Tweet) :
  forall l : list json,
  exists added,
    merge_results lib tag (JArr l) top_tweets = inr (JArr (l ++ added))
    /\ (no_equal_pair l = true -> no_equal_pair (l ++ added) = true)
    /\ (forall y, In y added ->
                  Py.elem y l = false
                  /\ exists t, In t top_tweets /\ y = tweet_dict lib tag t).
Proof.
  induction top_tweets as [|t rest IH]; intros l; simpl.
  - exists []. rewrite app_nil_r.
    split; [reflexivity|]. split; [auto | intros y []].
  - destruct (Py.elem (tweet_dict lib tag t) l) eqn:E.
    + destruct (IH l) as (added & Hm & Hinv & Hnew).
      exists added. split; [assumption|]. split; [assumption|].
      intros y Hy. destruct (Hnew y Hy) as (Hy1 & t' & Ht' & ->).
      split; [assumption|]. exists t'. auto.
    + destruct (IH (l ++ [tweet_dict lib tag t])) as (added & Hm & Hinv & Hnew).
      exists (tweet_dict lib tag t :: added).
      replace (l ++ tweet_dict lib tag t :: added)
        with ((l ++ [tweet_dict lib tag t]) ++ added)
        by now rewrite <- app_assoc.
      split; [assumption|]. split.
      * intros Hl. apply Hinv. rewrite no_equal_pair_snoc, Hl, E. reflexivity.
      * intros y [<-|Hy].
        -- split; [assumption|]. exists t. auto.
        -- destruct (Hnew y Hy) as (Hy1 & t' & Ht' & ->). split.
           ++ unfold Py.elem in *. rewrite existsb_app in Hy1.
              now apply orb_false_iff in Hy1 as [Hy1 _].
           ++ exists t'. auto.
Qed.

Lemma merge_results_duplicates (tag : string) (top_tweets : list Tweet)
  (l : list json) :
  (forall t, In t top_tweets -> In (tweet_dict lib tag t) l) ->
  merge_results lib tag (JArr l) top_tweets = inr (JArr l).
Proof.
  induction top_tweets as [|t rest IH]; intros Hdup; simpl; [reflexivity|].
  rewrite elem_In.
  - apply IH. intros t' Ht'. apply Hdup. now right.
  - apply Hdup. now left.
  - now apply eq_post_json.
Qed.

End Merge.

(** C5. Merging the posts collected for a ticker into the stored list
    only appends, and only posts that are equal to no post of the list
    built so far; so a stored list without two equal posts stays without
    two equal posts, and so does the list started from nothing. Equality
    is on every stored field: two stored posts are equal exactly when all
    their fields are. A batch made of posts already in the list leaves
    the list, and its size, as they were. *)
Theorem merge_keeps_posts_distinct (lib : PyLib) (tag : string)
  (l : list json) (top_tweets : list Tweet) :
  (exists added,
      scraping_lambda.merge_results lib tag (JArr l) top_tweets
      = inr (JArr (l ++ added))
      /\ (no_equal_pair l = true -> no_equal_pair (l ++ added) = true)
      /\ (forall y, In y added ->
                    Py.elem y l = false
                    /\ exists t, In t top_tweets
                                 /\ y = scraping_lambda.tweet_dict lib tag t))
  /\ (exists merged,
         scraping_lambda.merge_results lib tag (JArr []) top_tweets
         = inr (JArr merged)
         /\ no_equal_pair merged = true)
  /\ (forall p q : scraping_lambda.Post,
         Py.eq (scraping_lambda.post_json p) (scraping_lambda.post_json q)
         = true <-> p = q)
  /\ ((forall t, In t top_tweets ->
                 In (scraping_lambda.tweet_dict lib tag t) l) ->
      scraping_lambda.merge_results lib tag (JArr l) top_tweets
      = inr (JArr l)).
Proof.
  split; [apply merge_results_appends|]. split.
  - destruct (merge_results_appends lib tag top_tweets [])
      as (added & Hm & Hinv & _).
    exists added. split; [exact Hm|]. now apply Hinv.
  - split; [exact eq_post_json | apply merge_results_duplicates].
Qed.

(** C5, the gap. The stored result set is whatever the object read
    holds, and the merge leaves it as it is: a stored set with the same
    post twice is loaded so, and after the merge with a new post the
    result set still holds the two identical posts. *)
Lemma stored_duplicates_survive_the_merge :
  fst (scraping_lambda.load_existing_results (quiet_env JNull)
         (scraping_lambda.file_name_of "$AAPL") stored_twice_world)
  = inr (JArr stored_twice)
  /\ scraping_lambda.merge_results plain_lib "$AAPL" (JArr stored_twice)
       [new_tweet]
     = inr (JArr (stored_twice
                  ++ [scraping_lambda.tweet_dict plain_lib "$AAPL" new_tweet]))
  /\ no_equal_pair
       (stored_twice
        ++ [scraping_lambda.tweet_dict plain_lib "$AAPL" new_tweet])
     = false.
Proof. repeat split; vm_compute; reflexivity. Qed.

(** ** Enrichment of the posts of one file *)

Section Enrich.
Import enrichment_lambda.
Context (lib : PyLib) (env : Env).

Lemma rstrip_all_space (s : string) :
  all_space s = true -> PyStr.rstrip PyStr.is_space s = "".
Proof.
  induction s as [|a s IH]; simpl; [reflexivity|].
  intros H. apply andb_true_iff in H as [Ha Hs].
  now rewrite (IH Hs), Ha.
Qed.

Lemma strip_all_space (s : string) :
  all_space s = true -> PyStr.strip PyStr.is_space s = "".
Proof. intros H. unfold PyStr.strip. now rewrite rstrip_all_space. Qed.

(** A candidate field of a post is [None] or a string, and so is what
    [or] makes of two of them. *)
Lemma text_field_get (d : list (string * json)) (k : string) :
  text_field_ok d k = true ->
  Py.get d k JNull = JNull \/ exists s, Py.get d k JNull = JStr s.
Proof.
  unfold text_field_ok, Py.get.
  destruct (Py.lookup d k) as [[| | |s| |]|]; try discriminate; eauto.
Qed.

Lemma or_string (v r : json) :
  (v = JNull \/ exists s, v = JStr s) ->
  (exists s, r = JStr s) ->
  exists s, Py.or_ v r = JStr s.
Proof.
  intros [->|(s & ->)] Hr; [exact Hr|].
  unfold Py.or_. destruct (Py.truthy (JStr s)); eauto.
Qed.

Lemma tweet_text_post (tw : json) :
  is_post tw = true -> exists s, tweet_text tw = inr s.
Proof.
  destruct tw as [| | | | |d]; try discriminate.
  unfold is_post, text_fields. simpl forallb. intros H.
  apply andb_true_iff in H as [H1 H].
  apply andb_true_iff in H as [H2 H].
  apply andb_true_iff in H as [H3 H].
  apply andb_true_iff in H as [H4 _].
  assert (Hor : exists s,
    Py.or_ (Py.get d "content" JNull)
      (Py.or_ (Py.get d "text" JNull)
         (Py.or_ (Py.get d "rawContent" JNull)
            (Py.or_ (Py.get d "full_text" JNull) (JStr ""))))
    = JStr s).
  { apply or_string; [now apply text_field_get|].
    apply or_string; [now apply text_field_get|].
    apply or_string; [now apply text_field_get|].
    apply or_string; [now apply text_field_get|].
    now exists "". }
  destruct Hor as (s & Hs).
  unfold tweet_text. rewrite Hs. eauto.
Qed.

(** A value that is [None] or a string of whitespace, and what [or]
    makes of two of them. *)
Lemma blank_field_get (d : list (string * json)) (k : string) :
  blank_field d k = true ->
  Py.get d k JNull = JNull
  \/ exists s, Py.get d k JNull = JStr s /\ all_space s = true.
Proof.
  unfold blank_field, Py.get.
  destruct (Py.lookup d k) as [[| | |s| |]|]; try discriminate; eauto.
Qed.

Lemma or_blank (v r : json) :
  (v = JNull \/ exists s, v = JStr s /\ all_space s = true) ->
  (exists s, r = JStr s /\ all_space s = true) ->
  exists s, Py.or_ v r = JStr s /\ all_space s = true.
Proof.
  intros [->|(s & -> & Hs)] Hr; [exact Hr|].
  unfold Py.or_. destruct (Py.truthy (JStr s)); eauto.
Qed.

Lemma tweet_text_blank (d : list (string * json)) :
  forallb (blank_field d) text_fields = true -> tweet_text (JObj d) = inr "".
Proof.
  unfold text_fields. simpl forallb. intros H.
  apply andb_true_iff in H as [H1 H].
  apply andb_true_iff in H as [H2 H].
  apply andb_true_iff in H as [H3 H].
  apply andb_true_iff in H as [H4 _].
  assert (Hor : exists s,
    Py.or_ (Py.get d "content" JNull)
      (Py.or_ (Py.get d "text" JNull)
         (Py.or_ (Py.get d "rawContent" JNull)
            (Py.or_ (Py.get d "full_text" JNull) (JStr ""))))
    = JStr s /\ all_space s = true).
  { apply or_blank; [now apply blank_field_get|].
    apply or_blank; [now apply blank_field_get|].
    apply or_blank; [now apply blank_field_get|].
    apply or_blank; [now apply blank_field_get|].
    now exists "". }
  destruct Hor as (s & Hs & Hsp).
  unfold tweet_text. rewrite Hs. now rewrite (strip_all_space s Hsp).
Qed.

Lemma lookup_set_same (d : list (string * json)) (k : string) (v : json) :
  Py.lookup (Py.set d k v) k = Some v.
Proof.
  induction d as [|[k' v'] d IH]; simpl.
  - now rewrite String.eqb_refl.
  - destruct (String.eqb k' k) eqn:E; simpl; now rewrite E.
Qed.

Lemma lookup_set_other (d : list (string * json)) (k k' : string) (v : json) :
  k <> k' -> Py.lookup (Py.set d k v) k' = Py.lookup d k'.
Proof.
  intros Hne. induction d as [|[k0 v0] d IH]; simpl.
  - apply String.eqb_neq in Hne. now rewrite Hne.
  - destruct (String.eqb_spec k0 k) as [->|Hk]; simpl.
    + apply String.eqb_neq in Hne. now rewrite Hne.
    + now rewrite IH.
Qed.

(** The two fields are there after the assignment, and nothing else has
    changed. *)
Lemma set_sentiment_fields (d : list (string * json)) (ls : json * Q) :
  exists d',
    set_sentiment (JObj d) ls = JObj d'
    /\ Py.lookup d' "sentiment" = Some (fst ls)
    /\ Py.lookup d' "sentiment_score" = Some (JNum (snd ls))
    /\ forall k, k <> "sentiment" -> k <> "sentiment_score" ->
                 Py.lookup d' k = Py.lookup d k.
Proof.
  eexists. split; [reflexivity|]. split; [|split].
  - rewrite lookup_set_other by discriminate. apply lookup_set_same.
  - apply lookup_set_same.
  - intros k H1 H2. rewrite !lookup_set_other by congruence. reflexivity.
Qed.

(** The three ways out of [enrich_tweet] for a post whose text is [s]. *)
Lemma enrich_tweet_cases (tw : json) (s : string) (w : World) :
  tweet_text tw = inr s ->
  enrich_tweet lib env tw w =
  if String.eqb s "" then (inr (set_sentiment tw sentinel), w)
  else
    let text := PyStr.take MAX_CHARS s in
    match infer env (trace w) text with
    | inl _ => (inr (set_sentiment tw sentinel), log (EvInvoke text) w)
    | inr resp =>
        match _pick_best_label lib resp with
        | inl _ => (inr (set_sentiment tw sentinel), log (EvInvoke text) w)
        | inr ls => (inr (set_sentiment tw ls), log (EvInvoke text) w)
        end
    end.
Proof.
  intros Ht. unfold enrich_tweet, bind, lift. rewrite Ht.
  destruct (String.eqb s ""); [reflexivity|].
  unfold try_, bind, invoke_endpoint, lift, ret. simpl.
  destruct (infer env (trace w) _); [reflexivity|].
  destruct (_pick_best_label lib _); reflexivity.
Qed.

Lemma enrich_tweet_raises (tw : json) (e : exn) (w : World) :
  tweet_text tw = inl e -> enrich_tweet lib env tw w = (inl e, w).
Proof. intros Ht. unfold enrich_tweet, bind, lift. now rewrite Ht. Qed.

(** Whatever the endpoint does, a post comes out with a label and a score
    assigned, and the store is not touched. *)
Lemma enrich_tweet_post (tw : json) (w : World) :
  is_post tw = true ->
  exists ls w',
    enrich_tweet lib env tw w = (inr (set_sentiment tw ls), w')
    /\ objs w' = objs w.
Proof.
  intros Hp. destruct (tweet_text_post tw Hp) as [s Hs].
  rewrite (enrich_tweet_cases tw s w Hs).
  destruct (String.eqb s ""); [now eexists _, _|]. simpl.
  destruct (infer env (trace w) _); [now eexists _, _|].
  destruct (_pick_best_label lib _); now eexists _, _.
Qed.

Lemma enrich_each_posts (tweets : list json) :
  forall w,
    forallb is_post tweets = true ->
    exists tweets' w',
      enrich_each lib env tweets w = (inr tweets', w')
      /\ objs w' = objs w
      /\ Forall2 (fun tw tw' => exists ls, tw' = set_sentiment tw ls)
           tweets tweets'.
Proof.
  induction tweets as [|tw rest IH]; intros w Hall; simpl.
  - exists [], w. repeat split. constructor.
  - simpl in Hall. apply andb_true_iff in Hall as [Hp Hrest].
    destruct (enrich_tweet_post tw w Hp) as (ls & w1 & Htw & Ho1).
    destruct (IH w1 Hrest) as (rest' & w2 & Hr & Ho2 & Hf).
    exists (set_sentiment tw ls :: rest'), w2.
    unfold bind. rewrite Htw, Hr. split; [reflexivity|].
    split; [congruence|]. constructor; eauto.
Qed.

(** What came out of [enrich_tweet] is the dictionary that went in, with
    the pair assigned that the text and the endpoint's answer decide. *)
Lemma enrich_tweet_result (tw tw' : json) (w w' : World) :
  enrich_tweet lib env tw w = (inr tw', w') ->
  exists d s ls,
    tw = JObj d /\ tweet_text tw = inr s
    /\ tw' = set_sentiment (JObj d) ls
    /\ assigned lib env (trace w) s ls
    /\ exists evs, trace w' = trace w ++ evs.
Proof.
  intros H. destruct (tweet_text tw) as [e|s] eqn:Ht.
  - rewrite (enrich_tweet_raises tw e w Ht) in H. discriminate.
  - rewrite (enrich_tweet_cases tw s w Ht) in H.
    destruct tw as [| | | | |d]; try discriminate Ht.
    exists d, s. unfold assigned.
    destruct (String.eqb_spec s "") as [Hs|Hs].
    { injection H as <- <-. exists sentinel.
      repeat split; auto. exists []. now rewrite app_nil_r. }
    cbv zeta in H.
    destruct (infer env (trace w) _) as [e|resp] eqn:Hinf.
    { injection H as <- <-. exists sentinel.
      repeat split; eauto 8. }
    destruct (_pick_best_label lib resp) as [e|ls] eqn:Hpick.
    { injection H as <- <-. exists sentinel.
      repeat split; eauto 10. }
    injection H as <- <-. exists ls. repeat split; eauto 10.
Qed.

Lemma enrich_each_result (tweets : list json) :
  forall tweets' w w',
    enrich_each lib env tweets w = (inr tweets', w') ->
    Forall2 (fun tw tw' =>
               exists d s ls evs,
                 tw = JObj d /\ tweet_text tw = inr s
                 /\ tw' = set_sentiment (JObj d) ls
                 /\ assigned lib env (trace w ++ evs) s ls)
      tweets tweets'.
Proof.
  induction tweets as [|tw rest IH]; intros tweets' w w' H; simpl in H.
  - injection H as <- <-. constructor.
  - unfold bind in H.
    destruct (enrich_tweet lib env tw w) as [[e|tw'] w1] eqn:Htw;
      [discriminate|].
    destruct (enrich_each lib env rest w1) as [[e|rest'] w2] eqn:Hr;
      [discriminate|].
    injection H as <- <-.
    destruct (enrich_tweet_result _ _ _ _ Htw)
      as (d & s & ls & -> & Hs & -> & Has & evs1 & Htr).
    constructor.
    + exists d, s, ls, []. rewrite app_nil_r. auto.
    + eapply Forall2_impl; [exact (IH _ _ _ Hr)|].
      intros x y (d' & s' & ls' & evs & -> & Hs' & -> & Has').
      exists d', s', ls', (evs1 ++ evs).
      rewrite app_assoc, <- Htr. auto.
Qed.

End Enrich.

(** C4, as the enricher has it. Every post of an enriched list is the
    dictionary that was read, with [sentiment] and [sentiment_score]
    assigned and its other fields as they were; the score is a number,
    and the pair is the one the text of the post and the endpoint decide:
    the sentinel when the text is empty, when the call raises or when the
    selection raises on the answer, and else the pair that
    [_pick_best_label] selects from the answer the endpoint gave for the
    truncated text (so the label is whatever that answer holds). A post
    whose candidate text fields are all missing, [null], empty or
    whitespace gets the sentinel and the endpoint is not called. When the
    call for a post raises, the post gets the sentinel and the loop goes
    on with the next posts; a list of posts is always enriched to the
    end. *)
Theorem enriched_posts_carry_sentiment (lib : PyLib) (env : Env) :
  (forall tweets tweets' w w',
      enrichment_lambda.enrich_each lib env tweets w = (inr tweets', w') ->
      Forall2 (fun tw tw' =>
                 exists d d' s ls evs,
                   tw = JObj d /\ tw' = JObj d'
                   /\ enrichment_lambda.tweet_text tw = inr s
                   /\ Py.lookup d' "sentiment" = Some (fst ls)
                   /\ Py.lookup d' "sentiment_score" = Some (JNum (snd ls))
                   /\ (forall k, k <> "sentiment" -> k <> "sentiment_score" ->
                                 Py.lookup d' k = Py.lookup d k)
                   /\ assigned lib env (trace w ++ evs) s ls)
        tweets tweets')
  /\ (forall tw tw' w w',
         enrichment_lambda.enrich_tweet lib env tw w = (inr tw', w') ->
         exists d s ls,
           tw = JObj d /\ enrichment_lambda.tweet_text tw = inr s
           /\ tw' = enrichment_lambda.set_sentiment tw ls
           /\ assigned lib env (trace w) s ls)
  /\ (forall d w,
         forallb (blank_field d) text_fields = true ->
         enrichment_lambda.enrich_tweet lib env (JObj d) w
         = (inr (enrichment_lambda.set_sentiment (JObj d) sentinel), w))
  /\ (forall tw s w e,
         enrichment_lambda.tweet_text tw = inr s -> s <> "" ->
         infer env (trace w) (PyStr.take MAX_CHARS s) = inl e ->
         enrichment_lambda.enrich_tweet lib env tw w
         = (inr (enrichment_lambda.set_sentiment tw sentinel),
            log (EvInvoke (PyStr.take MAX_CHARS s)) w))
  /\ (forall tw tw' rest w w1,
         enrichment_lambda.enrich_tweet lib env tw w = (inr tw', w1) ->
         enrichment_lambda.enrich_each lib env (tw :: rest) w
         = match enrichment_lambda.enrich_each lib env rest w1 with
           | (inr rest', w2) => (inr (tw' :: rest'), w2)
           | (inl e, w2) => (inl e, w2)
           end)
  /\ (forall tweets w,
         forallb is_post tweets = true ->
         exists tweets' w',
           enrichment_lambda.enrich_each lib env tweets w = (inr tweets', w')
           /\ length tweets' = length tweets).
Proof.
  split; [|split; [|split; [|split; [|split]]]].
  - intros tweets tweets' w w' H.
    eapply Forall2_impl; [exact (enrich_each_result lib env _ _ _ _ H)|].
    intros tw tw' (d & s & ls & evs & -> & Hs & -> & Has).
    destruct (set_sentiment_fields d ls) as (d' & Hd' & H1 & H2 & H3).
    exists d, d', s, ls, evs. auto 10.
  - intros tw tw' w w' H.
    destruct (enrich_tweet_result lib env _ _ _ _ H)
      as (d & s & ls & -> & Hs & -> & Has & _).
    exists d, s, ls. auto.
  - intros d w Hb.
    rewrite (enrich_tweet_cases lib env _ "" w (tweet_text_blank d Hb)).
    reflexivity.
  - intros tw s w e Ht Hs Hinf.
    rewrite (enrich_tweet_cases lib env tw s w Ht).
    apply String.eqb_neq in Hs. rewrite Hs. cbv zeta. now rewrite Hinf.
  - intros tw tw' rest w w1 H. simpl. unfold bind. rewrite H.
    destruct (enrichment_lambda.enrich_each lib env rest w1) as [[e|rest'] w2];
      reflexivity.
  - intros tweets w Hall.
    destruct (enrich_each_posts lib env tweets w Hall)
      as (tweets' & w' & H & _ & Hf).
    exists tweets', w'. split; [exact H|].
    symmetry. exact (Forall2_length _ _ _ Hf).
Qed.

(** C4, the gap: when the only candidate of the endpoint's answer has a
    [null] label, the file is processed and the post is written with
    [sentiment] set to [null]. *)
Lemma null_label_is_written :
  fst (enrichment_lambda.lambda_handler plain_lib (quiet_env null_label_answer)
         aapl_event aapl_world)
  = inr ([aapl_key], [])
  /\ objs (snd (enrichment_lambda.lambda_handler plain_lib
                  (quiet_env null_label_answer) aapl_event aapl_world))
     !! (DEST_BUCKET, "AAPL-2024-01-01.json")
     = Some (BJson (JArr [JObj [("content", JStr "AAPL to the moon");
                                ("sentiment", JNull);
                                ("sentiment_score", JNum (1 # 2))]])).
Proof. split; vm_compute; reflexivity. Qed.

(** C10. With no [Records] field, or with an empty list of records, the
    handler returns two empty lists and leaves the outside world as it
    was: no object is read, written or deleted, and no call is logged. *)
Theorem handler_without_records (lib : PyLib) (env : Env) (w : World) :
  enrichment_lambda.lambda_handler lib env
    {| enrichment_lambda.Records := None |} w = (inr ([], []), w)
  /\ enrichment_lambda.lambda_handler lib env
       {| enrichment_lambda.Records := Some [] |} w = (inr ([], []), w).
Proof. split; reflexivity. Qed.

(** ** One file, and a batch of files (enrichment) *)

Section Orchestrator.
Import enrichment_lambda.
Context (lib : PyLib) (env : Env).

Lemma process_file_unfold (bucket key : string) (w : World) :
  process_file lib env bucket key w =
  match get_object env bucket key w with
  | (inl e, w1) => (inl e, w1)
  | (inr obj_data, w1) =>
      match json_loads obj_data with
      | inl e => (inl e, w1)
      | inr tweets =>
          match enrich_all lib env tweets w1 with
          | (inl e, w2) => (inl e, w2)
          | (inr enriched, w2) =>
              match put_object env DEST_BUCKET (dest_key_of key)
                      (BJson enriched) w2 with
              | (inl e, w3) => (inl e, w3)
              | (inr _, w3) => delete_object env bucket key w3
              end
          end
      end
  end.
Proof.
  unfold process_file, bind, lift.
  destruct (get_object env bucket key w) as [[e|obj_data] w1]; [reflexivity|].
  destruct (json_loads obj_data) as [e|tweets]; [reflexivity|].
  destruct (enrich_all lib env tweets w1) as [[e|enriched] w2]; [reflexivity|].
  destruct (put_object env DEST_BUCKET _ _ w2) as [[e|[]] w3]; reflexivity.
Qed.

(** A file that is not in the store: the read raises, nothing changes. *)
Lemma process_file_missing (bucket key : string) (w : World) :
  objs w !! (bucket, key) = None ->
  exists e,
    process_file lib env bucket key w = (inl e, log (EvGet bucket key) w)
    /\ (s3_fault env (trace w) (EvGet bucket key) = None -> e = NoSuchKey).
Proof.
  intros Habs. rewrite process_file_unfold. unfold get_object. rewrite Habs.
  destruct (s3_fault env (trace w) (EvGet bucket key)) as [e|].
  - exists e. split; [reflexivity | discriminate].
  - exists NoSuchKey. split; reflexivity.
Qed.

(** After a file was processed, its source is gone. *)
Lemma process_file_deletes (bucket key : string) (w w' : World) :
  process_file lib env bucket key w = (inr tt, w') ->
  objs w' !! (bucket, key) = None.
Proof.
  rewrite process_file_unfold.
  destruct (get_object env bucket key w) as [[e|obj_data] w1]; [discriminate|].
  destruct (json_loads obj_data) as [e|tweets]; [discriminate|].
  destruct (enrich_all lib env tweets w1) as [[e|enriched] w2]; [discriminate|].
  destruct (put_object env DEST_BUCKET _ _ w2) as [[e|[]] w3]; [discriminate|].
  unfold delete_object.
  destruct (s3_fault env (trace w3) _); [discriminate|].
  intros [= <-]. simpl. apply lookup_delete_eq.
Qed.

Lemma handle_record_failure (record : S3Record) (processed : list string)
  (failed : list (string * exn)) (w w1 : World) (e : exn) :
  key_accepted (unquote_plus lib (object_key record)) = true ->
  process_file lib env (bucket_name record)
    (unquote_plus lib (object_key record)) w = (inl e, w1) ->
  handle_record lib env record processed failed w
  = (inr (processed, failed ++ [(unquote_plus lib (object_key record), e)]),
     w1).
Proof.
  intros Hacc Hp. rewrite (handle_record_accepts _ _ _ _ _ Hacc).
  unfold try_, bind. now rewrite Hp.
Qed.

Lemma handle_record_success (record : S3Record) (processed : list string)
  (failed : list (string * exn)) (w w1 : World) :
  key_accepted (unquote_plus lib (object_key record)) = true ->
  process_file lib env (bucket_name record)
    (unquote_plus lib (object_key record)) w = (inr tt, w1) ->
  handle_record lib env record processed failed w
  = (inr (processed ++ [unquote_plus lib (object_key record)], failed), w1).
Proof.
  intros Hacc Hp. rewrite (handle_record_accepts _ _ _ _ _ Hacc).
  unfold try_, bind. now rewrite Hp.
Qed.

(** The loop never raises; it adds one entry, to one of the two lists, for
    every accepted key. *)
Lemma handle_records_outcome (records : list S3Record) :
  forall processed failed w,
  exists new_processed new_failed w',
    handle_records lib env records processed failed w
    = (inr (processed ++ new_processed, failed ++ new_failed), w')
    /\ length new_processed + length new_failed
       = length (accepted_keys lib records)
    /\ forall k, In k (accepted_keys lib records) <->
                 In k new_processed \/ In k (map fst new_failed).
Proof.
  induction records as [|record rest IH]; intros processed failed w.
  - exists [], [], w. rewrite !app_nil_r. simpl. repeat split; tauto.
  - simpl handle_records. unfold bind, accepted_keys. simpl.
    fold (accepted_keys lib rest).
    destruct (key_accepted (unquote_plus lib (object_key record))) eqn:Hacc.
    + destruct (process_file lib env (bucket_name record)
                  (unquote_plus lib (object_key record)) w)
        as [[e|[]] w1] eqn:Hp.
      * rewrite (handle_record_failure _ _ _ _ _ _ Hacc Hp). simpl.
        destruct (IH processed
                    (failed ++ [(unquote_plus lib (object_key record), e)]) w1)
          as (np & nf & w' & Hr & Hlen & Hin).
        exists np, ((unquote_plus lib (object_key record), e) :: nf), w'.
        rewrite Hr, <- app_assoc. simpl. split; [reflexivity|].
        split; [lia|]. intros k. rewrite Hin. tauto.
      * rewrite (handle_record_success _ _ _ _ _ Hacc Hp). simpl.
        destruct (IH (processed ++ [unquote_plus lib (object_key record)])
                    failed w1)
          as (np & nf & w' & Hr & Hlen & Hin).
        exists (unquote_plus lib (object_key record) :: np), nf, w'.
        rewrite Hr, <- app_assoc. simpl. split; [reflexivity|].
        split; [lia|]. intros k. rewrite Hin. tauto.
    + rewrite (handle_record_skips _ _ _ _ _ _ Hacc). simpl.
      apply IH.
Qed.

End Orchestrator.

(** C7. The handler never raises: for every batch it returns the two
    lists, which hold one entry for every accepted key of the batch, in
    [processed] or in [failed]. An exception raised while an accepted
    file is loaded, enriched, written or deleted puts the key and the
    exception in [failed], and the loop goes on with the next records
    from the world that attempt left. A notification for a key that is no
    longer in the store fails at the read (with "not found" when the
    store itself does not fail) and changes nothing in the store; and a
    file that was processed is no longer in the store. *)
Theorem per_file_failures_are_recorded (lib : PyLib) (env : Env) :
  (forall event w,
      exists processed failed w',
        enrichment_lambda.lambda_handler lib env event w
        = (inr (processed, failed), w')
        /\ length processed + length failed
           = length (accepted_keys lib
                       (match enrichment_lambda.Records event with
                        | Some l => l
                        | None => []
                        end))
        /\ forall k,
             In k (accepted_keys lib
                     (match enrichment_lambda.Records event with
                      | Some l => l
                      | None => []
                      end))
             <-> In k processed \/ In k (map fst failed))
  /\ (forall record rest processed failed w w1 e,
         enrichment_lambda.key_accepted
           (unquote_plus lib (enrichment_lambda.object_key record)) = true ->
         enrichment_lambda.process_file lib env
           (enrichment_lambda.bucket_name record)
           (unquote_plus lib (enrichment_lambda.object_key record)) w
         = (inl e, w1) ->
         enrichment_lambda.handle_records lib env (record :: rest)
           processed failed w
         = enrichment_lambda.handle_records lib env rest processed
             (failed
              ++ [(unquote_plus lib (enrichment_lambda.object_key record), e)])
             w1)
  /\ (forall record rest processed failed w w1,
         enrichment_lambda.key_accepted
           (unquote_plus lib (enrichment_lambda.object_key record)) = true ->
         enrichment_lambda.process_file lib env
           (enrichment_lambda.bucket_name record)
           (unquote_plus lib (enrichment_lambda.object_key record)) w
         = (inr tt, w1) ->
         enrichment_lambda.handle_records lib env (record :: rest)
           processed failed w
         = enrichment_lambda.handle_records lib env rest
             (processed
              ++ [unquote_plus lib (enrichment_lambda.object_key record)])
             failed w1)
  /\ (forall bucket key w,
         objs w !! (bucket, key) = None ->
         exists e,
           enrichment_lambda.process_file lib env bucket key w
           = (inl e, log (EvGet bucket key) w)
           /\ (s3_fault env (trace w) (EvGet bucket key) = None ->
               e = NoSuchKey))
  /\ (forall bucket key w w',
         enrichment_lambda.process_file lib env bucket key w = (inr tt, w') ->
         objs w' !! (bucket, key) = None).
Proof.
  split; [|split; [|split; [|split]]].
  - intros event w. unfold enrichment_lambda.lambda_handler.
    destruct (handle_records_outcome lib env
                (match enrichment_lambda.Records event with
                 | Some l => l
                 | None => []
                 end) [] [] w)
      as (np & nf & w' & Hr & Hlen & Hin).
    exists np, nf, w'. auto.
  - intros record rest processed failed w w1 e Hacc Hp.
    simpl. unfold bind.
    now rewrite (handle_record_failure lib env _ _ _ _ _ _ Hacc Hp).
  - intros record rest processed failed w w1 Hacc Hp.
    simpl. unfold bind.
    now rewrite (handle_record_success lib env _ _ _ _ _ Hacc Hp).
  - apply process_file_missing.
  - apply process_file_deletes.
Qed.

(** The second delivery of a notification, in one batch: the file is
    processed once, and the second record is put in [failed] with "not
    found". *)
Example redelivery_is_recorded :
  fst (enrichment_lambda.lambda_handler plain_lib (quiet_env positive_answer)
         {| enrichment_lambda.Records :=
              Some [ {| enrichment_lambda.bucket_name := SOURCE_BUCKET;
                        enrichment_lambda.object_key := aapl_key |};
                     {| enrichment_lambda.bucket_name := SOURCE_BUCKET;
                        enrichment_lambda.object_key := aapl_key |} ] |}
         aapl_world)
  = inr ([aapl_key], [(aapl_key, NoSuchKey)]).
Proof. vm_compute. reflexivity. Qed.

(** ** The enriched file and the raw file *)

Section RawAndEnriched.
Import PyStr enrichment_lambda.

Lemma has_char_app (c : ascii) (a b : string) :
  has_char c (a +:+ b) = has_char c a || has_char c b.
Proof.
  induction a as [|x a IH]; str_simpl; [reflexivity|].
  now rewrite IH, orb_assoc.
Qed.

Lemma cut_last_parts (c : ascii) (s : string) :
  forall h t, cut_last c s = Some (h, t) -> s = h +:+ String c t.
Proof.
  induction s as [|a s IH]; intros h t; simpl; [discriminate|].
  destruct (cut_last c s) as [[h' t']|].
  - intros [= <- <-]. rewrite (IH h' t' eq_refl). reflexivity.
  - destruct (Ascii.eqb_spec a c) as [->|]; [|discriminate].
    intros [= <- <-]. reflexivity.
Qed.

Lemma cut_first_parts (c : ascii) (s : string) :
  forall h t, cut_first c s = Some (h, t) -> s = h +:+ String c t.
Proof.
  induction s as [|a s IH]; intros h t; simpl; [discriminate|].
  destruct (Ascii.eqb_spec a c) as [->|].
  - intros [= <- <-]. reflexivity.
  - destruct (cut_first c s) as [[h' t']|]; [|discriminate].
    intros [= <- <-]. rewrite (IH h' t' eq_refl). reflexivity.
Qed.

Lemma rsplit1_head_without (c c' : ascii) (s : string) :
  has_char c' s = false -> has_char c' (rsplit1_head c s) = false.
Proof.
  unfold rsplit1_head. destruct (cut_last c s) as [[h t]|] eqn:E; [|auto].
  rewrite (cut_last_parts _ _ _ _ E), has_char_app.
  intros H. now apply orb_false_iff in H as [H _].
Qed.

Lemma split1_last_without (c c' : ascii) (s : string) :
  has_char c' s = false -> has_char c' (split1_last c s) = false.
Proof.
  unfold split1_last. destruct (cut_first c s) as [[h t]|] eqn:E; [|auto].
  rewrite (cut_first_parts _ _ _ _ E), has_char_app. simpl.
  intros H. apply orb_false_iff in H as [_ H].
  now apply orb_false_iff in H as [_ H].
Qed.

(** The destination key has no [/]; an accepted key has three. *)
Lemma dest_key_differs (key : string) :
  key_accepted key = true -> dest_key_of key <> key.
Proof.
  intros Hacc. apply key_accepted_iff in Hacc as (t & d & Ht & Hd & ->).
  intros Heq.
  assert (H1 : has_char "/" (dest_key_of (partition_key t d)) = false).
  { unfold dest_key_of, ticker_of, date_of.
    rewrite (split_partition_key _ _ Ht Hd). simpl nth.
    rewrite !has_char_app, (rsplit1_head_without _ _ _ Ht),
      (split1_last_without _ _ _ Hd). reflexivity. }
  rewrite Heq in H1. unfold partition_key in H1.
  rewrite has_char_app in H1. discriminate H1.
Qed.

End RawAndEnriched.

(** C3, as the handler has it. For an accepted key whose raw file is read
    and holds a list of N posts, the posts are enriched (the same N
    posts, each with its label and score assigned) and the write of the
    enriched file at [{ticker}-{date}.json] is attempted. If the write is
    refused, nothing is written and the raw file stays. If it succeeds,
    the delete of the raw file is attempted: when the delete succeeds the
    run is a success, the enriched file is in the store and the raw file
    is gone; when the delete is refused, the enriched file is in the
    store and the raw file stays. So the raw file is gone only if the
    enriched file was written, and it is gone after every successful
    run. *)
Theorem raw_file_enriched_then_deleted (lib : PyLib) (env : Env)
  (bucket key : string) (tweets : list json) (w : World) :
  enrichment_lambda.key_accepted key = true ->
  objs w !! (bucket, key) = Some (BJson (JArr tweets)) ->
  s3_fault env (trace w) (EvGet bucket key) = None ->
  forallb is_post tweets = true ->
  exists tweets' w2,
    enrichment_lambda.enrich_each lib env tweets (log (EvGet bucket key) w)
    = (inr tweets', w2)
    /\ Forall2 (fun tw tw' =>
                  exists ls, tw' = enrichment_lambda.set_sentiment tw ls)
         tweets tweets'
    /\ length tweets' = length tweets
    /\ (let dest := (DEST_BUCKET, enrichment_lambda.dest_key_of key) in
        let put := EvPut DEST_BUCKET (enrichment_lambda.dest_key_of key)
                     (BJson (JArr tweets')) in
        let del := EvDelete bucket key in
        let written := <[dest := BJson (JArr tweets')]> (objs w) in
        match s3_fault env (trace w2) put with
        | Some e =>
            enrichment_lambda.process_file lib env bucket key w
            = (inl e, {| objs := objs w; trace := trace w2 ++ [put] |})
        | None =>
            match s3_fault env (trace w2 ++ [put]) del with
            | Some e =>
                enrichment_lambda.process_file lib env bucket key w
                = (inl e, {| objs := written;
                             trace := (trace w2 ++ [put]) ++ [del] |})
            | None =>
                enrichment_lambda.process_file lib env bucket key w
                = (inr tt, {| objs := delete (bucket, key) written;
                              trace := (trace w2 ++ [put]) ++ [del] |})
            end
        end)
    /\ (forall r w',
           enrichment_lambda.process_file lib env bucket key w = (r, w') ->
           (objs w' !! (bucket, key) = None ->
            objs w' !! (DEST_BUCKET, enrichment_lambda.dest_key_of key)
            = Some (BJson (JArr tweets')))
           /\ (r = inr tt ->
               objs w' !! (bucket, key) = None
               /\ objs w' !! (DEST_BUCKET, enrichment_lambda.dest_key_of key)
                  = Some (BJson (JArr tweets')))).
Proof.
  intros Hacc Hraw Hget Hposts.
  destruct (enrich_each_posts lib env tweets (log (EvGet bucket key) w) Hposts)
    as (tweets' & w2 & Hen & Hobjs & Hrel).
  simpl in Hobjs.
  assert (Hne : (DEST_BUCKET, enrichment_lambda.dest_key_of key)
                <> (bucket, key)).
  { intros [= _ Hk]. now apply (dest_key_differs key Hacc). }
  assert (Hrun :
    enrichment_lambda.process_file lib env bucket key w
    = match s3_fault env (trace w2)
              (EvPut DEST_BUCKET (enrichment_lambda.dest_key_of key)
                 (BJson (JArr tweets'))) with
      | Some e =>
          (inl e,
           {| objs := objs w;
              trace := trace w2
                       ++ [EvPut DEST_BUCKET (enrichment_lambda.dest_key_of key)
                             (BJson (JArr tweets'))] |})
      | None =>
          match s3_fault env
                  (trace w2
                   ++ [EvPut DEST_BUCKET (enrichment_lambda.dest_key_of key)
                         (BJson (JArr tweets'))])
                  (EvDelete bucket key) with
          | Some e =>
              (inl e,
               {| objs := <[(DEST_BUCKET, enrichment_lambda.dest_key_of key)
                            := BJson (JArr tweets')]> (objs w);
                  trace := (trace w2
                            ++ [EvPut DEST_BUCKET
                                  (enrichment_lambda.dest_key_of key)
                                  (BJson (JArr tweets'))])
                           ++ [EvDelete bucket key] |})
          | None =>
              (inr tt,
               {| objs := delete (bucket, key)
                            (<[(DEST_BUCKET, enrichment_lambda.dest_key_of key)
                               := BJson (JArr tweets')]> (objs w));
                  trace := (trace w2
                            ++ [EvPut DEST_BUCKET
                                  (enrichment_lambda.dest_key_of key)
                                  (BJson (JArr tweets'))])
                           ++ [EvDelete bucket key] |})
          end
      end).
  { rewrite process_file_unfold. unfold get_object. rewrite Hget, Hraw.
    simpl json_loads. cbv iota beta.
    unfold enrichment_lambda.enrich_all, bind. rewrite Hen.
    unfold ret, put_object.
    destruct (s3_fault env (trace w2) _) as [e|].
    - unfold log. now rewrite Hobjs.
    - unfold delete_object. simpl trace. simpl objs. rewrite Hobjs.
      destruct (s3_fault env _ (EvDelete bucket key)) as [e|]; reflexivity. }
  exists tweets', w2. split; [exact Hen|]. split; [exact Hrel|].
  split; [symmetry; exact (Forall2_length _ _ _ Hrel)|].
  split.
  - cbv zeta.
    destruct (s3_fault env (trace w2) _) as [e|]; [exact Hrun|].
    destruct (s3_fault env _ (EvDelete bucket key)) as [e|]; exact Hrun.
  - intros r w' Hp. rewrite Hrun in Hp.
    destruct (s3_fault env (trace w2) _) as [e|].
    { injection Hp as <- <-. simpl. split; [congruence | discriminate]. }
    destruct (s3_fault env _ (EvDelete bucket key)) as [e|].
    { injection Hp as <- <-. simpl. split; [|discriminate].
      rewrite lookup_insert_ne by exact Hne. congruence. }
    injection Hp as <- <-. simpl.
    assert (Hd : delete (bucket, key)
                   (<[(DEST_BUCKET, enrichment_lambda.dest_key_of key)
                      := BJson (JArr tweets')]> (objs w))
                 !! (DEST_BUCKET, enrichment_lambda.dest_key_of key)
                 = Some (BJson (JArr tweets'))).
    { rewrite lookup_delete_ne by (intros E; now apply Hne).
      apply lookup_insert_eq. }
    split; [intros _; exact Hd|].
    intros _. split; [apply lookup_delete_eq | exact Hd].
Qed.

(** C3, the gap: when the store refuses the delete, the enriched file has
    been written and the raw file is still there; the key is reported in
    [failed]. *)
Lemma refused_delete_leaves_both_files :
  fst (enrichment_lambda.lambda_handler plain_lib
         (delete_refused_env positive_answer) aapl_event aapl_world)
  = inr ([], [(aapl_key, ServiceError "AccessDenied")])
  /\ objs (snd (enrichment_lambda.lambda_handler plain_lib
                  (delete_refused_env positive_answer) aapl_event aapl_world))
     !! (DEST_BUCKET, "AAPL-2024-01-01.json")
     = Some (BJson (JArr [JObj [("content", JStr "AAPL to the moon");
                                ("sentiment", JStr "positive");
                                ("sentiment_score", JNum (9 # 10))]]))
  /\ objs (snd (enrichment_lambda.lambda_handler plain_lib
                  (delete_refused_env positive_answer) aapl_event aapl_world))
     !! (SOURCE_BUCKET, aapl_key)
     = Some (BJson (JArr [aapl_post])).
Proof. repeat split; vm_compute; reflexivity. Qed.

(** C3 on the file of one post, in an outside where nothing fails. *)
Lemma raw_file_enriched_then_deleted_witness :
  enrichment_lambda.key_accepted aapl_key = true
  /\ objs aapl_world !! (SOURCE_BUCKET, aapl_key)
     = Some (BJson (JArr [aapl_post]))
  /\ forallb is_post [aapl_post] = true
  /\ exists tweets' w',
       length tweets' = 1
       /\ enrichment_lambda.process_file plain_lib (quiet_env positive_answer)
            SOURCE_BUCKET aapl_key aapl_world = (inr tt, w')
       /\ objs w' !! (SOURCE_BUCKET, aapl_key) = None
       /\ objs w' !! (DEST_BUCKET, enrichment_lambda.dest_key_of aapl_key)
          = Some (BJson (JArr tweets')).
Proof.
  assert (Hraw : objs aapl_world !! (SOURCE_BUCKET, aapl_key)
                 = Some (BJson (JArr [aapl_post])))
    by (vm_compute; reflexivity).
  split; [reflexivity|]. split; [exact Hraw|]. split; [reflexivity|].
  destruct (raw_file_enriched_then_deleted plain_lib
              (quiet_env positive_answer) SOURCE_BUCKET aapl_key [aapl_post]
              aapl_world eq_refl Hraw eq_refl eq_refl)
    as (tweets' & w2 & _ & _ & Hlen & Hrun & Hafter).
  simpl in Hrun.
  destruct (Hafter _ _ Hrun) as [_ Hok].
  destruct (Hok eq_refl) as [Hgone Hthere].
  exists tweets'. eexists. split; [exact Hlen|].
  split; [exact Hrun|]. split; [exact Hgone | exact Hthere].
Defined.

(** ** The harvest (scraper) *)

Section Harvest.
Import scraping_lambda.
Context (lib : PyLib) (env : Env).

Lemma get_object_logs (bucket key : string) (w : World) :
  snd (get_object env bucket key w) = log (EvGet bucket key) w.
Proof.
  unfold get_object. destruct (s3_fault env _ _); [reflexivity|].
  destruct (objs w !! _); reflexivity.
Qed.

Lemma load_existing_results_unfold (file_name : string) (w : World) :
  load_existing_results env file_name w =
  match get_object env S3_BUCKET ("tweets/" +:+ file_name) w with
  | (inr obj, w') => (json_loads obj, w')
  | (inl NoSuchKey, w') => (inr (JArr []), w')
  | (inl e, w') => (inl e, w')
  end.
Proof.
  unfold load_existing_results, try_, bind, lift.
  destruct (get_object env S3_BUCKET _ w) as [[e|obj] w'].
  - destruct e; reflexivity.
  - destruct obj; reflexivity.
Qed.

(** Loading reads once and writes nothing. *)
Lemma load_existing_results_world (file_name : string) (w : World) :
  snd (load_existing_results env file_name w)
  = log (EvGet S3_BUCKET ("tweets/" +:+ file_name)) w.
Proof.
  rewrite load_existing_results_unfold.
  rewrite <- (get_object_logs S3_BUCKET ("tweets/" +:+ file_name) w).
  destruct (get_object env S3_BUCKET _ w) as [[e|obj] w']; [|reflexivity].
  destruct e; reflexivity.
Qed.

Lemma scrape_tags_aborts (start_str tag : string) (rest : list string)
  (w w' : World) (e : exn) :
  scrape_tag lib env start_str tag w = (inl e, w') ->
  scrape_tags lib env start_str (tag :: rest) w = (inl e, w').
Proof. intros H. simpl. unfold bind. now rewrite H. Qed.

Lemma scrape_tags_continues (start_str tag : string) (rest : list string)
  (w w' : World) :
  scrape_tag lib env start_str tag w = (inr tt, w') ->
  scrape_tags lib env start_str (tag :: rest) w
  = scrape_tags lib env start_str rest w'.
Proof. intros H. simpl. unfold bind. now rewrite H. Qed.

(** A ticker whose search raises: one read, the search, and no write. *)
Lemma scrape_tag_search_raises (start_str tag : string) (w w1 : World)
  (results : json) (e : exn) :
  load_existing_results env (file_name_of tag) w = (inr results, w1) ->
  search env (trace w1) (tag +:+ " lang:en since:" +:+ start_str) = inl e ->
  w1 = log (EvGet S3_BUCKET ("tweets/" +:+ file_name_of tag)) w
  /\ scrape_tag lib env start_str tag w
     = (inl e, log (EvSearch (tag +:+ " lang:en since:" +:+ start_str)) w1).
Proof.
  intros Hload Hsearch. split.
  - rewrite <- (load_existing_results_world (file_name_of tag) w).
    now rewrite Hload.
  - unfold scrape_tag, bind. rewrite Hload.
    unfold api_search. now rewrite Hsearch.
Qed.

(** A ticker that went through has its partition in the store. *)
Lemma scrape_tag_writes (start_str tag : string) (w w1 : World) :
  scrape_tag lib env start_str tag w = (inr tt, w1) ->
  exists day data,
    objs w1 !! (S3_BUCKET,
                "tweets/" +:+ file_name_of tag +:+ "/date=" +:+ day
                +:+ "/data.json")
    = Some (BJson data)
    /\ last (trace w1)
       = Some (EvPut S3_BUCKET
                 ("tweets/" +:+ file_name_of tag +:+ "/date=" +:+ day
                  +:+ "/data.json") (BJson data)).
Proof.
  unfold scrape_tag, bind.
  destruct (load_existing_results env (file_name_of tag) w)
    as [[e|results] w0]; [discriminate|].
  destruct (api_search env _ w0) as [[e|tweets] w0']; [discriminate|].
  unfold lift.
  destruct (merge_results lib tag results (top_tweets_of tweets))
    as [e|data]; [discriminate|].
  unfold save_results_to_s3, bind, put_object, ret, raise.
  destruct (s3_fault env (trace w0') _) as [e|]; [discriminate|].
  destruct (Py.has_len data); [|discriminate].
  intros [= <-]. simpl.
  exists (today env (trace w0')), data. split.
  - apply lookup_insert_eq.
  - apply last_snoc.
Qed.

End Harvest.

(** C8. When the read of the stored results of a ticker reports "not
    found", [load_existing_results] returns the empty list; any other
    exception of the read is raised to the caller, and so is the failure
    to decode what was read. On the store: a key that is absent gives the
    empty list, a document gives the document. *)
Theorem load_existing_results_not_found (env : Env) (file_name : string)
  (w : World) :
  (forall w',
      get_object env scraping_lambda.S3_BUCKET ("tweets/" +:+ file_name) w
      = (inl NoSuchKey, w') ->
      scraping_lambda.load_existing_results env file_name w
      = (inr (JArr []), w'))
  /\ (forall e w',
         e <> NoSuchKey ->
         get_object env scraping_lambda.S3_BUCKET ("tweets/" +:+ file_name) w
         = (inl e, w') ->
         scraping_lambda.load_existing_results env file_name w = (inl e, w'))
  /\ (forall obj w',
         get_object env scraping_lambda.S3_BUCKET ("tweets/" +:+ file_name) w
         = (inr obj, w') ->
         scraping_lambda.load_existing_results env file_name w
         = (json_loads obj, w'))
  /\ (s3_fault env (trace w)
        (EvGet scraping_lambda.S3_BUCKET ("tweets/" +:+ file_name)) = None ->
      objs w !! (scraping_lambda.S3_BUCKET, "tweets/" +:+ file_name) = None ->
      scraping_lambda.load_existing_results env file_name w
      = (inr (JArr []),
         log (EvGet scraping_lambda.S3_BUCKET ("tweets/" +:+ file_name)) w)).
Proof.
  split; [|split; [|split]].
  - intros w' H. rewrite load_existing_results_unfold, H. reflexivity.
  - intros e w' Hne H. rewrite load_existing_results_unfold, H.
    destruct e; try reflexivity. congruence.
  - intros obj w' H. rewrite load_existing_results_unfold, H. reflexivity.
  - intros Hf Habs. rewrite load_existing_results_unfold.
    unfold get_object. rewrite Hf, Habs. reflexivity.
Qed.

(** C9, on the code. The adapter returns at most 30 symbols, and a cell
    with a [strong] child gives a symbol that starts with [$]; but a cell
    without a [strong] child gives its own text, with no [$] in front:
    the page whose only cell holds [AAPL] as plain text yields [AAPL]. *)
Theorem cell_without_strong_has_no_dollar :
  (forall env w tickers w',
      scraping_lambda.retrieve_top_hashtags env w = (inr tickers, w') ->
      length tickers <= 30)
  /\ (forall strong_text text,
         String.prefix "$"
           (scraping_lambda.ticker_of_cell
              {| cell_strong := Some strong_text; cell_text := text |})
         = true)
  /\ scraping_lambda.retrieve_top_hashtags (page_env [bare_cell]) empty_world
     = (inr ["AAPL"], empty_world)
  /\ String.prefix "$" "AAPL" = false.
Proof.
  split; [|split; [|split; reflexivity]].
  - intros env w tickers w'. unfold scraping_lambda.retrieve_top_hashtags.
    destruct (page_cells env (trace w)) as [e|cells]; [discriminate|].
    intros [= <- _]. unfold scraping_lambda.tickers_of_cells.
    rewrite length_firstn. lia.
  - intros strong_text text. unfold scraping_lambda.ticker_of_cell.
    simpl cell_strong. cbv iota.
    change ("$" +:+ PyStr.strip PyStr.is_space strong_text)
      with (String "$" (PyStr.strip PyStr.is_space strong_text)).
    simpl. destruct (ascii_dec "$" "$") as [_|Hne]; [|congruence].
    now destruct (PyStr.strip PyStr.is_space strong_text).
Qed.

(** C1, as the scraper has it. Nothing in the loop over the tickers
    catches an exception: the first one that is raised ends the cycle. For
    three tickers where the first goes through and the search of the
    second raises, the cycle ends with that exception; the partition of
    the first ticker is in the store, where its write is the last store
    call that changed anything; for the second ticker there is one read
    and the failed search and nothing is written; the third ticker is
    never reached. *)
Theorem ticker_exception_ends_the_cycle (lib : PyLib) (env : Env)
  (start_str t1 t2 t3 : string) (w w1 w2 : World) (results : json) (e : exn) :
  scraping_lambda.scrape_tag lib env start_str t1 w = (inr tt, w1) ->
  scraping_lambda.load_existing_results env (scraping_lambda.file_name_of t2) w1
  = (inr results, w2) ->
  search env (trace w2) (t2 +:+ " lang:en since:" +:+ start_str) = inl e ->
  scraping_lambda.scrape_tags lib env start_str [t1; t2; t3] w
  = (inl e, log (EvSearch (t2 +:+ " lang:en since:" +:+ start_str)) w2)
  /\ objs w2 = objs w1
  /\ trace (log (EvSearch (t2 +:+ " lang:en since:" +:+ start_str)) w2)
     = trace w1
       ++ [EvGet scraping_lambda.S3_BUCKET
             ("tweets/" +:+ scraping_lambda.file_name_of t2);
           EvSearch (t2 +:+ " lang:en since:" +:+ start_str)]
  /\ exists day data,
       objs w1 !! (scraping_lambda.S3_BUCKET,
                   "tweets/" +:+ scraping_lambda.file_name_of t1 +:+ "/date="
                   +:+ day +:+ "/data.json")
       = Some (BJson data)
       /\ last (trace w1)
          = Some (EvPut scraping_lambda.S3_BUCKET
                    ("tweets/" +:+ scraping_lambda.file_name_of t1 +:+ "/date="
                     +:+ day +:+ "/data.json") (BJson data)).
Proof.
  intros H1 Hload Hsearch.
  destruct (scrape_tag_search_raises lib env start_str t2 w1 w2 results e
              Hload Hsearch) as [Hw2 H2].
  split.
  - rewrite (scrape_tags_continues lib env _ _ _ _ _ H1).
    now apply scrape_tags_aborts.
  - split; [now rewrite Hw2|]. split.
    + rewrite Hw2. simpl. now rewrite <- app_assoc.
    + exact (scrape_tag_writes lib env start_str t1 w w1 H1).
Qed.

(** C1 on three tickers, where the search raises for the second. *)
Lemma ticker_exception_ends_the_cycle_witness :
  scraping_lambda.scrape_tags plain_lib bbb_fails_env "2023-12-31_12:00:00_UTC"
    ["$AAA"; "$BBB"; "$CCC"] empty_world
  = (inl (ServiceError "search failed"),
     log (EvSearch "$BBB lang:en since:2023-12-31_12:00:00_UTC")
       (log (EvGet scraping_lambda.S3_BUCKET "tweets/BBB.json")
          (snd (scraping_lambda.scrape_tag plain_lib bbb_fails_env
                  "2023-12-31_12:00:00_UTC" "$AAA" empty_world)))).
Proof.
  refine (proj1 (ticker_exception_ends_the_cycle plain_lib bbb_fails_env
                   "2023-12-31_12:00:00_UTC" "$AAA" "$BBB" "$CCC" empty_world
                   (snd (scraping_lambda.scrape_tag plain_lib bbb_fails_env
                           "2023-12-31_12:00:00_UTC" "$AAA" empty_world))
                   (log (EvGet scraping_lambda.S3_BUCKET "tweets/BBB.json")
                      (snd (scraping_lambda.scrape_tag plain_lib bbb_fails_env
                              "2023-12-31_12:00:00_UTC" "$AAA" empty_world)))
                   (JArr []) (ServiceError "search failed") _ _ _));
    vm_compute; reflexivity.
Defined.

(** C1, the gap: with three tickers where the search of the second
    raises, the cycle ends with the exception; the partition of the first
    ticker is written, and the third ticker is never processed: no call
    is made for it and its partition is not in the store. *)
Lemma third_ticker_is_not_written :
  fst (scraping_lambda.scrape_tags plain_lib bbb_fails_env
         "2023-12-31_12:00:00_UTC" ["$AAA"; "$BBB"; "$CCC"] empty_world)
  = inl (ServiceError "search failed")
  /\ objs (snd (scraping_lambda.scrape_tags plain_lib bbb_fails_env
                  "2023-12-31_12:00:00_UTC" ["$AAA"; "$BBB"; "$CCC"]
                  empty_world))
     !! (scraping_lambda.S3_BUCKET, "tweets/AAA.json/date=2024-01-01/data.json")
     = Some (BJson (JArr []))
  /\ objs (snd (scraping_lambda.scrape_tags plain_lib bbb_fails_env
                  "2023-12-31_12:00:00_UTC" ["$AAA"; "$BBB"; "$CCC"]
                  empty_world))
     !! (scraping_lambda.S3_BUCKET, "tweets/CCC.json/date=2024-01-01/data.json")
     = None
  /\ trace (snd (scraping_lambda.scrape_tags plain_lib bbb_fails_env
                   "2023-12-31_12:00:00_UTC" ["$AAA"; "$BBB"; "$CCC"]
                   empty_world))
     = [ EvGet scraping_lambda.S3_BUCKET "tweets/AAA.json";
         EvSearch "$AAA lang:en since:2023-12-31_12:00:00_UTC";
         EvPut scraping_lambda.S3_BUCKET
           "tweets/AAA.json/date=2024-01-01/data.json" (BJson (JArr []));
         EvGet scraping_lambda.S3_BUCKET "tweets/BBB.json";
         EvSearch "$BBB lang:en since:2023-12-31_12:00:00_UTC" ].
Proof. repeat split; vm_compute; reflexivity. Qed.

(** * Further properties of the two lambdas *)

(** ** Names of files and keys *)

Section Names.
Import PyStr.

Lemma has_char_lstrip (c : ascii) (p : ascii -> bool) (s : string) :
  has_char c s = false -> has_char c (lstrip p s) = false.
Proof.
  induction s as [|a s IH]; simpl; [reflexivity|].
  intros H. apply orb_false_iff in H as [Ha Hs].
  destruct (p a); [now apply IH|]. simpl. now rewrite Ha, Hs.
Qed.

Lemma has_char_rstrip (c : ascii) (p : ascii -> bool) (s : string) :
  has_char c s = false -> has_char c (rstrip p s) = false.
Proof.
  induction s as [|a s IH]; simpl; [reflexivity|].
  intros H. apply orb_false_iff in H as [Ha Hs].
  specialize (IH Hs).
  destruct (rstrip p s) as [|b r].
  - destruct (p a); simpl; [reflexivity | now rewrite Ha].
  - simpl in *. now rewrite Ha.
Qed.

Lemma has_char_strip (c : ascii) (p : ascii -> bool) (s : string) :
  has_char c s = false -> has_char c (strip p s) = false.
Proof. intros H. now apply has_char_lstrip, has_char_rstrip. Qed.

Lemma has_char_replace (c a : ascii) (new s : string) :
  has_char c new = false -> has_char c s = false ->
  has_char c (replace a new s) = false.
Proof.
  intros Hnew. induction s as [|b s IH]; simpl; [reflexivity|].
  intros H. apply orb_false_iff in H as [Hb Hs].
  destruct (Ascii.eqb b a).
  - rewrite has_char_app, Hnew. now apply IH.
  - simpl. rewrite Hb. now apply IH.
Qed.

Lemma has_char_replaced (a : ascii) (new s : string) :
  has_char a new = false -> has_char a (replace a new s) = false.
Proof.
  intros Hnew. induction s as [|b s IH]; simpl; [reflexivity|].
  destruct (Ascii.eqb b a) eqn:E.
  - now rewrite has_char_app, Hnew.
  - simpl. now rewrite E.
Qed.

Lemma file_name_without (c : ascii) (tag : string) :
  has_char c "_.json" = false -> has_char c tag = false ->
  has_char c (scraping_lambda.file_name_of tag) = false.
Proof.
  intros Hc Htag. unfold scraping_lambda.file_name_of.
  simpl in Hc. apply orb_false_iff in Hc as [Hu Hj].
  rewrite has_char_app. apply orb_false_iff. split.
  - apply has_char_replace; [simpl; now rewrite Hu|].
    apply has_char_replace; [reflexivity|].
    now apply has_char_strip.
  - exact Hj.
Qed.

End Names.

(** X1. The two stages agree on the key: the partition key the scraper
    writes for a ticker, on a day, is accepted by the enrichment handler
    when neither the ticker nor the day holds a [/]; the ticker the
    handler derives is the file name without its [.json], and the date is
    the day. *)
Theorem harvested_key_is_accepted (tag day : string) :
  PyStr.has_char "/" tag = false ->
  PyStr.has_char "/" day = false ->
  enrichment_lambda.key_accepted
    ("tweets/" +:+ scraping_lambda.file_name_of tag +:+ "/date=" +:+ day
     +:+ "/data.json") = true
  /\ enrichment_lambda.ticker_of
       ("tweets/" +:+ scraping_lambda.file_name_of tag +:+ "/date=" +:+ day
        +:+ "/data.json") +:+ ".json"
     = scraping_lambda.file_name_of tag
  /\ enrichment_lambda.date_of
       ("tweets/" +:+ scraping_lambda.file_name_of tag +:+ "/date=" +:+ day
        +:+ "/data.json") = day.
Proof.
  intros Htag Hday.
  assert (Hf : PyStr.has_char "/" (scraping_lambda.file_name_of tag) = false)
    by (apply file_name_without; [reflexivity | exact Htag]).
  assert (Hd : PyStr.has_char "/" ("date=" +:+ day) = false)
    by (rewrite has_char_app, Hday; reflexivity).
  assert (Hkey : "tweets/" +:+ scraping_lambda.file_name_of tag +:+ "/date="
                 +:+ day +:+ "/data.json"
                 = partition_key (scraping_lambda.file_name_of tag)
                     ("date=" +:+ day)).
  { unfold partition_key. now str_norm. }
  rewrite Hkey. split.
  - apply key_accepted_iff. eauto.
  - unfold enrichment_lambda.ticker_of, enrichment_lambda.date_of.
    rewrite (split_partition_key _ _ Hf Hd). simpl nth. split.
    + unfold scraping_lambda.file_name_of at 1.
      rewrite (rsplit1_head_ext _ "json" eq_refl). reflexivity.
    + change ("date=" +:+ day) with ("date" +:+ "=" +:+ day).
      now rewrite split1_last_value.
Qed.

(** X1 on the ticker [$AAPL] and one day. *)
Lemma harvested_key_is_accepted_witness :
  enrichment_lambda.ticker_of
    ("tweets/" +:+ scraping_lambda.file_name_of "$AAPL" +:+ "/date="
     +:+ "2024-01-01" +:+ "/data.json") = "AAPL"
  /\ enrichment_lambda.date_of
       ("tweets/" +:+ scraping_lambda.file_name_of "$AAPL" +:+ "/date="
        +:+ "2024-01-01" +:+ "/data.json") = "2024-01-01".
Proof.
  destruct (harvested_key_is_accepted "$AAPL" "2024-01-01" eq_refl eq_refl)
    as (_ & _ & Hdate).
  split; [reflexivity | exact Hdate].
Defined.

Section Slashes.
Import PyStr.

Lemma length_split (c : ascii) (s : string) :
  length (split c s) = S (count_char c s).
Proof.
  induction s as [|a s IH]; simpl; [reflexivity|].
  destruct (Ascii.eqb a c); simpl; [now rewrite IH|].
  pose proof (split_not_nil c s) as Hs.
  destruct (split c s); [congruence | exact IH].
Qed.

Lemma count_char_app (c : ascii) (a b : string) :
  count_char c (a +:+ b) = count_char c a + count_char c b.
Proof.
  induction a as [|x a IH]; str_simpl; [reflexivity|]. rewrite IH. lia.
Qed.

Lemma count_char_has (c : ascii) (s : string) :
  has_char c s = true -> 1 <= count_char c s.
Proof.
  induction s as [|a s IH]; simpl; [discriminate|].
  destruct (Ascii.eqb a c); simpl; [lia | exact IH].
Qed.

Lemma has_char_lstrip_kept (c : ascii) (p : ascii -> bool) (s : string) :
  p c = false -> has_char c (lstrip p s) = has_char c s.
Proof.
  intros Hp. induction s as [|a s IH]; simpl; [reflexivity|].
  destruct (p a) eqn:Ea; [|reflexivity].
  rewrite IH. destruct (Ascii.eqb_spec a c) as [->|]; [congruence | reflexivity].
Qed.

Lemma has_char_rstrip_kept (c : ascii) (p : ascii -> bool) (s : string) :
  p c = false -> has_char c (rstrip p s) = has_char c s.
Proof.
  intros Hp. induction s as [|a s IH]; simpl; [reflexivity|].
  destruct (rstrip p s) as [|b r].
  - simpl in IH. rewrite <- IH.
    destruct (p a) eqn:Ea; simpl.
    + destruct (Ascii.eqb_spec a c) as [->|]; [congruence | reflexivity].
    + now rewrite orb_false_r.
  - rewrite <- IH. reflexivity.
Qed.

Lemma has_char_replace_kept (c a : ascii) (new s : string) :
  Ascii.eqb a c = false -> has_char c s = true ->
  has_char c (replace a new s) = true.
Proof.
  intros Hac. induction s as [|b s IH]; simpl; [discriminate|].
  destruct (Ascii.eqb_spec b a) as [->|Hba].
  - rewrite Hac. simpl. intros H. rewrite has_char_app, (IH H).
    apply orb_true_r.
  - simpl. destruct (Ascii.eqb b c); [reflexivity|]. exact IH.
Qed.

Lemma file_name_keeps_slash (tag : string) :
  has_char "/" tag = true ->
  has_char "/" (scraping_lambda.file_name_of tag) = true.
Proof.
  intros H. unfold scraping_lambda.file_name_of.
  rewrite has_char_app. apply orb_true_iff. left.
  apply has_char_replace_kept; [reflexivity|].
  apply has_char_replace_kept; [reflexivity|].
  unfold strip. rewrite has_char_lstrip_kept, has_char_rstrip_kept;
    [exact H | reflexivity | reflexivity].
Qed.

End Slashes.

(** X2. A ticker that holds a [/] is harvested under a key that the
    enrichment handler skips: the partition key then has more than four
    segments, whatever the day. *)
Theorem ticker_with_slash_is_skipped (tag day : string) :
  PyStr.has_char "/" tag = true ->
  enrichment_lambda.key_accepted
    ("tweets/" +:+ scraping_lambda.file_name_of tag +:+ "/date=" +:+ day
     +:+ "/data.json") = false.
Proof.
  intros Htag.
  pose proof (count_char_has _ _ (file_name_keeps_slash tag Htag)) as Hc.
  assert (Hlen : (length (PyStr.split "/"
                     ("tweets/" +:+ scraping_lambda.file_name_of tag
                      +:+ "/date=" +:+ day +:+ "/data.json")) =? 4)%nat
                  = false).
  { apply Nat.eqb_neq. rewrite length_split, !count_char_app.
    change (count_char "/" "tweets/") with 1.
    change (count_char "/" "/date=") with 1.
    change (count_char "/" "/data.json") with 1. lia. }
  unfold enrichment_lambda.key_accepted. cbv zeta. rewrite Hlen.
  now rewrite andb_false_r.
Qed.

(** X2 on the ticker [$BRK/B]. *)
Lemma ticker_with_slash_is_skipped_witness :
  PyStr.has_char "/" "$BRK/B" = true
  /\ enrichment_lambda.key_accepted
       ("tweets/" +:+ scraping_lambda.file_name_of "$BRK/B" +:+ "/date="
        +:+ "2024-01-01" +:+ "/data.json") = false.
Proof.
  split; [reflexivity|].
  exact (ticker_with_slash_is_skipped "$BRK/B" "2024-01-01" eq_refl).
Defined.

(** ** What one harvest cycle does to the outside *)

Section HarvestEffects.
Import scraping_lambda.
Context (lib : PyLib) (env : Env).

Lemma append_not_longer (s t : string) (a : ascii) : s +:+ String a t <> s.
Proof.
  induction s as [|x s IH]; str_simpl; [discriminate|].
  intros [= H]. now apply IH.
Qed.

(** Everything one ticker can do: at most a read, a search and a write,
    and the only change to the store is the write of its partition. *)
Lemma scrape_tag_effect (start_str tag : string) (w w1 : World)
  (r : result unit) :
  scrape_tag lib env start_str tag w = (r, w1) ->
  exists evs,
    trace w1 = trace w ++ evs
    /\ Forall harvest_event evs
    /\ length (List.filter is_put evs) <= 1
    /\ (r = inr tt -> length (List.filter is_put evs) = 1)
    /\ (objs w1 = objs w
        \/ exists day data,
             objs w1
             = <[(S3_BUCKET,
                  "tweets/" +:+ file_name_of tag +:+ "/date=" +:+ day
                  +:+ "/data.json") := BJson data]> (objs w)).
Proof.
  unfold scrape_tag, bind.
  pose proof (load_existing_results_world env (file_name_of tag) w) as Hw.
  destruct (load_existing_results env (file_name_of tag) w)
    as [[e|results] w0]; simpl in Hw; subst w0.
  { intros [= <- <-]. exists [EvGet S3_BUCKET ("tweets/" +:+ file_name_of tag)].
    simpl. repeat split; auto; try discriminate.
    repeat constructor. eauto. }
  unfold api_search.
  destruct (search env _ _) as [e|tweets].
  { intros [= <- <-]. eexists [EvGet _ _; EvSearch _].
    simpl. rewrite <- app_assoc. repeat split; auto; try discriminate.
    repeat constructor. eauto. }
  unfold lift.
  destruct (merge_results lib tag results (top_tweets_of tweets))
    as [e|data].
  { intros [= <- <-]. eexists [EvGet _ _; EvSearch _].
    simpl. rewrite <- app_assoc. repeat split; auto; try discriminate.
    repeat constructor. eauto. }
  unfold save_results_to_s3, bind, put_object, ret, raise.
  destruct (s3_fault env _ _) as [e|].
  { intros [= <- <-]. eexists [EvGet _ _; EvSearch _; EvPut _ _ _].
    simpl. rewrite <- !app_assoc. repeat split; auto; try discriminate.
    repeat constructor; eauto. }
  assert (Hok : exists evs,
    (trace w ++ [EvGet S3_BUCKET ("tweets/" +:+ file_name_of tag)])
    ++ [EvSearch (tag +:+ " lang:en since:" +:+ start_str)]
    ++ [EvPut S3_BUCKET
          ("tweets/" +:+ file_name_of tag +:+ "/date="
           +:+ today env
                 (trace (log (EvSearch (tag +:+ " lang:en since:" +:+ start_str))
                           (log (EvGet S3_BUCKET
                                   ("tweets/" +:+ file_name_of tag)) w)))
           +:+ "/data.json") (BJson data)]
    = trace w ++ evs
    /\ Forall harvest_event evs
    /\ length (List.filter is_put evs) = 1).
  { eexists [EvGet _ _; EvSearch _; EvPut _ _ _].
    rewrite <- !app_assoc. split; [reflexivity|]. split; [|reflexivity].
    repeat constructor; eauto. }
  destruct Hok as (evs & Htr & Hev & Hput).
  destruct (Py.has_len data); intros [= <- <-]; exists evs; simpl;
    rewrite <- app_assoc; (split; [exact Htr|]); (split; [exact Hev|]);
    (split; [lia|]); (split; [intros _; exact Hput|]); right; eauto.
Qed.

End HarvestEffects.

(** X3. What the scraper writes for a ticker is never what it loads for
    that ticker: however the processing of a ticker ends, the object at
    [tweets/{file_name}], which [load_existing_results] reads, is as it
    was before. *)
Theorem harvest_leaves_loaded_key (lib : PyLib) (env : Env)
  (start_str tag : string) (w w1 : World) (r : result unit) :
  scraping_lambda.scrape_tag lib env start_str tag w = (r, w1) ->
  objs w1 !! (scraping_lambda.S3_BUCKET,
              "tweets/" +:+ scraping_lambda.file_name_of tag)
  = objs w !! (scraping_lambda.S3_BUCKET,
               "tweets/" +:+ scraping_lambda.file_name_of tag).
Proof.
  intros H.
  destruct (scrape_tag_effect lib env _ _ _ _ _ H)
    as (evs & _ & _ & _ & _ & [->|(day & data & ->)]); [reflexivity|].
  apply lookup_insert_ne. intros Heq. apply (f_equal snd) in Heq.
  apply (append_not_longer ("tweets/" +:+ scraping_lambda.file_name_of tag)
           ("date=" +:+ day +:+ "/data.json") "/").
  rewrite append_assoc. exact Heq.
Qed.

(** X3 on the quiet outside: the ticker goes through, and the key that is
    loaded is still absent. *)
Lemma harvest_leaves_loaded_key_witness :
  objs (snd (scraping_lambda.scrape_tag plain_lib (quiet_env JNull) "t" "$AAPL"
               empty_world))
  !! (scraping_lambda.S3_BUCKET,
      "tweets/" +:+ scraping_lambda.file_name_of "$AAPL")
  = objs empty_world !! (scraping_lambda.S3_BUCKET,
                         "tweets/" +:+ scraping_lambda.file_name_of "$AAPL").
Proof.
  apply (harvest_leaves_loaded_key plain_lib (quiet_env JNull) "t" "$AAPL"
           empty_world _
           (fst (scraping_lambda.scrape_tag plain_lib (quiet_env JNull) "t"
                   "$AAPL" empty_world))).
  now destruct (scraping_lambda.scrape_tag _ _ _ _ _).
Defined.

(** X4. The harvest loop never deletes an object and never calls the
    endpoint: all it does is read and search, and write partition keys
    under [tweets/] in its own bucket. It writes at most once per ticker,
    and exactly once per ticker when the cycle goes to its end. *)
Theorem harvest_cycle_calls (lib : PyLib) (env : Env) (start_str : string)
  (hashtags : list string) (w w' : World) (r : result unit) :
  scraping_lambda.scrape_tags lib env start_str hashtags w = (r, w') ->
  exists evs,
    trace w' = trace w ++ evs
    /\ Forall harvest_event evs
    /\ length (List.filter is_put evs) <= length hashtags
    /\ (r = inr tt -> length (List.filter is_put evs) = length hashtags).
Proof.
  revert w. induction hashtags as [|tag rest IH]; intros w; simpl.
  - intros [= <- <-]. exists []. rewrite app_nil_r. repeat split; auto.
  - unfold bind.
    destruct (scraping_lambda.scrape_tag lib env start_str tag w)
      as [[e|[]] w1] eqn:Htag;
      destruct (scrape_tag_effect lib env _ _ _ _ _ Htag)
        as (evs1 & Htr1 & Hev1 & Hle1 & Hok1 & _).
    + intros [= <- <-]. exists evs1. repeat split; auto; [lia | discriminate].
    + intros Hrest. destruct (IH w1 Hrest) as (evs2 & Htr2 & Hev2 & Hle2 & Hok2).
      exists (evs1 ++ evs2). rewrite Htr2, Htr1, <- app_assoc.
      split; [reflexivity|]. split; [now apply Forall_app|].
      rewrite List.filter_app, length_app, (Hok1 eq_refl).
      split; [lia|]. intros Hr. rewrite (Hok2 Hr). lia.
Qed.

(** X4 on three tickers in the quiet outside: three writes. *)
Lemma harvest_cycle_calls_witness :
  exists evs,
    trace (snd (scraping_lambda.scrape_tags plain_lib (quiet_env JNull) "t"
                  ["$A"; "$B"; "$C"] empty_world))
    = trace empty_world ++ evs
    /\ Forall harvest_event evs
    /\ length (List.filter is_put evs) = 3.
Proof.
  destruct (harvest_cycle_calls plain_lib (quiet_env JNull) "t"
              ["$A"; "$B"; "$C"] empty_world _ _ (surjective_pairing _))
    as (evs & Htr & Hev & _ & Hok).
  exists evs. split; [exact Htr|]. split; [exact Hev|].
  apply Hok. vm_compute. reflexivity.
Defined.

(** X5. Writing a partition overwrites: after two successful saves of a
    ticker on the same day the store is as if only the second had been
    made, so saving the same results twice leaves one object with that
    content. *)
Theorem save_results_overwrites (env : Env) (file_name : string)
  (data1 data2 : json) (w w1 w2 : World) :
  scraping_lambda.save_results_to_s3 env file_name data1 w = (inr tt, w1) ->
  scraping_lambda.save_results_to_s3 env file_name data2 w1 = (inr tt, w2) ->
  today env (trace w1) = today env (trace w) ->
  objs w2
  = <[(scraping_lambda.S3_BUCKET,
       "tweets/" +:+ file_name +:+ "/date=" +:+ today env (trace w)
       +:+ "/data.json") := BJson data2]> (objs w)
  /\ (data1 = data2 -> objs w2 = objs w1).
Proof.
  unfold scraping_lambda.save_results_to_s3, bind, put_object, ret, raise.
  intros H1 H2 Hday. rewrite Hday in H2.
  destruct (s3_fault env (trace w) _); [discriminate|].
  destruct (Py.has_len data1); [|discriminate].
  injection H1 as <-.
  simpl in H2.
  destruct (s3_fault env _ _); [discriminate|].
  destruct (Py.has_len data2); [|discriminate].
  injection H2 as <-. simpl.
  split; [apply insert_insert_eq|].
  intros ->. now rewrite insert_insert_eq.
Qed.

(** X5 on two saves of the same list in the quiet outside. *)
Lemma save_results_overwrites_witness :
  objs (snd (scraping_lambda.save_results_to_s3 (quiet_env JNull) "AAPL.json"
               (JArr [])
               (snd (scraping_lambda.save_results_to_s3 (quiet_env JNull)
                       "AAPL.json" (JArr []) empty_world))))
  = objs (snd (scraping_lambda.save_results_to_s3 (quiet_env JNull) "AAPL.json"
                 (JArr []) empty_world)).
Proof.
  refine (proj2 (save_results_overwrites (quiet_env JNull) "AAPL.json"
                   (JArr []) (JArr []) empty_world _ _ _ _ _) eq_refl);
    reflexivity.
Defined.

(** ** The start of a harvest *)

(** X6. Unlike the stored results of a ticker, the account configuration
    must be there: when [config/accounts.json] is absent [run_scraper]
    raises "not found". When the configuration is loaded but the pool
    login raises, or the discovery of the tickers raises, [run_scraper]
    raises that exception. In the three cases the read of the
    configuration is the only call made: nothing is searched or written.
    The handler returns the status ["success"] only when [run_scraper]
    returned, from the world it left. *)
Theorem run_scraper_stops_early (lib : PyLib) (env : Env) (w : World) :
  (s3_fault env (trace w)
     (EvGet scraping_lambda.S3_BUCKET "config/accounts.json") = None ->
   objs w !! (scraping_lambda.S3_BUCKET, "config/accounts.json") = None ->
   scraping_lambda.run_scraper lib env w
   = (inl NoSuchKey,
      log (EvGet scraping_lambda.S3_BUCKET "config/accounts.json") w))
  /\ (forall accounts w1 e,
         scraping_lambda.load_accounts_from_s3 env w = (inr accounts, w1) ->
         login_all env accounts = Some e ->
         scraping_lambda.run_scraper lib env w
         = (inl e,
            log (EvGet scraping_lambda.S3_BUCKET "config/accounts.json") w))
  /\ (forall accounts w1 e,
         scraping_lambda.load_accounts_from_s3 env w = (inr accounts, w1) ->
         login_all env accounts = None ->
         page_cells env (trace w1) = inl e ->
         scraping_lambda.run_scraper lib env w
         = (inl e,
            log (EvGet scraping_lambda.S3_BUCKET "config/accounts.json") w))
  /\ (forall status w',
         scraping_lambda.lambda_handler lib env w = (inr status, w') ->
         status = "success"
         /\ scraping_lambda.run_scraper lib env w = (inr tt, w'))
  /\ (forall e w',
         scraping_lambda.run_scraper lib env w = (inl e, w') ->
         scraping_lambda.lambda_handler lib env w = (inl e, w')).
Proof.
  assert (Hworld : forall r w1,
             scraping_lambda.load_accounts_from_s3 env w = (r, w1) ->
             w1 = log (EvGet scraping_lambda.S3_BUCKET "config/accounts.json") w).
  { intros r w1. unfold scraping_lambda.load_accounts_from_s3, bind, lift.
    pose proof (get_object_logs env scraping_lambda.S3_BUCKET
                  "config/accounts.json" w) as Hg.
    destruct (get_object env _ _ w) as [[e|obj] w0]; simpl in Hg; subst w0;
      now intros [= _ <-]. }
  split; [|split; [|split; [|split]]].
  - intros Hf Habs.
    unfold scraping_lambda.run_scraper, scraping_lambda.load_accounts_from_s3,
      bind, get_object.
    now rewrite Hf, Habs.
  - intros accounts w1 e Hload Hlogin.
    pose proof (Hworld _ _ Hload) as ->.
    unfold scraping_lambda.run_scraper, bind. rewrite Hload, Hlogin.
    reflexivity.
  - intros accounts w1 e Hload Hlogin Hpage.
    pose proof (Hworld _ _ Hload) as ->.
    unfold scraping_lambda.run_scraper, bind. rewrite Hload, Hlogin.
    unfold ret, scraping_lambda.retrieve_top_hashtags. now rewrite Hpage.
  - intros status w'. unfold scraping_lambda.lambda_handler, bind.
    destruct (scraping_lambda.run_scraper lib env w) as [[e|[]] w1];
      [discriminate|].
    unfold ret. now intros [= <- <-].
  - intros e w' H. unfold scraping_lambda.lambda_handler, bind. now rewrite H.
Qed.

(** ** The posts kept for a ticker *)

Section TopTweets.
Import scraping_lambda.

Lemma insert_by_likes_perm (t : Tweet) (l : list Tweet) :
  Permutation (insert_by_likes t l) (t :: l).
Proof.
  induction l as [|h rest IH]; simpl; [reflexivity|].
  destruct (tw_likeCount h <=? tw_likeCount t)%Z; [reflexivity|].
  rewrite IH. apply perm_swap.
Qed.

Lemma sorted_by_likes_perm (l : list Tweet) :
  Permutation (sorted_by_likes l) l.
Proof.
  induction l as [|t l IH]; simpl; [reflexivity|].
  rewrite insert_by_likes_perm. now constructor.
Qed.

Lemma insert_by_likes_sorted (t : Tweet) (l : list Tweet) :
  StronglySorted (fun a b => (tw_likeCount b <= tw_likeCount a)%Z) l ->
  StronglySorted (fun a b => (tw_likeCount b <= tw_likeCount a)%Z)
    (insert_by_likes t l).
Proof.
  induction 1 as [|h rest Hs IH Hh]; simpl.
  - repeat constructor.
  - destruct (tw_likeCount h <=? tw_likeCount t)%Z eqn:E.
    + apply Z.leb_le in E. constructor; [now constructor|].
      constructor; [exact E|].
      eapply Forall_impl; [exact Hh|]. simpl. intros b Hb. lia.
    + apply Z.leb_gt in E. constructor; [exact IH|].
      rewrite (insert_by_likes_perm t rest).
      constructor; [lia | exact Hh].
Qed.

Lemma sorted_by_likes_sorted (l : list Tweet) :
  StronglySorted (fun a b => (tw_likeCount b <= tw_likeCount a)%Z)
    (sorted_by_likes l).
Proof.
  induction l as [|t l IH]; simpl; [constructor|].
  now apply insert_by_likes_sorted.
Qed.

(** Posts with the same number of likes keep their order. *)
Lemma insert_by_likes_stable (k : Z) (t : Tweet) (l : list Tweet) :
  List.filter (fun x => (tw_likeCount x =? k)%Z) (insert_by_likes t l)
  = List.filter (fun x => (tw_likeCount x =? k)%Z) (t :: l).
Proof.
  induction l as [|h rest IH]; [reflexivity|].
  simpl insert_by_likes.
  destruct (tw_likeCount h <=? tw_likeCount t)%Z eqn:E; [reflexivity|].
  apply Z.leb_gt in E. simpl in *. rewrite IH.
  destruct (tw_likeCount h =? k)%Z eqn:Eh; [|reflexivity].
  apply Z.eqb_eq in Eh.
  destruct (tw_likeCount t =? k)%Z eqn:Et; [|reflexivity].
  apply Z.eqb_eq in Et. lia.
Qed.

Lemma sorted_by_likes_stable (k : Z) (l : list Tweet) :
  List.filter (fun x => (tw_likeCount x =? k)%Z) (sorted_by_likes l)
  = List.filter (fun x => (tw_likeCount x =? k)%Z) l.
Proof.
  induction l as [|t l IH]; [reflexivity|].
  simpl sorted_by_likes. rewrite insert_by_likes_stable. simpl.
  now rewrite IH.
Qed.

End TopTweets.

(** X7. The posts kept for a ticker are exactly the posts found that have
    at least [MIN_LIKES] likes, each as many times as it was found,
    ordered by decreasing likes; posts with the same number of likes stay
    in the order the search returned them. *)
Theorem top_tweets_sorted_and_filtered (tweets : list Tweet) :
  Permutation (scraping_lambda.top_tweets_of tweets)
    (List.filter (fun t => (scraping_lambda.MIN_LIKES <=? tw_likeCount t)%Z)
       tweets)
  /\ StronglySorted (fun a b => (tw_likeCount b <= tw_likeCount a)%Z)
       (scraping_lambda.top_tweets_of tweets)
  /\ (forall k,
         List.filter (fun x => (tw_likeCount x =? k)%Z)
           (scraping_lambda.top_tweets_of tweets)
         = List.filter (fun x => (tw_likeCount x =? k)%Z)
             (List.filter
                (fun t => (scraping_lambda.MIN_LIKES <=? tw_likeCount t)%Z)
                tweets))
  /\ (forall t,
         In t (scraping_lambda.top_tweets_of tweets)
         <-> In t tweets /\ (scraping_lambda.MIN_LIKES <= tw_likeCount t)%Z).
Proof.
  unfold scraping_lambda.top_tweets_of.
  split; [apply sorted_by_likes_perm|].
  split; [apply sorted_by_likes_sorted|].
  split; [intros k; apply sorted_by_likes_stable|].
  intros t. split.
  - intros H. apply (Permutation_in _ (sorted_by_likes_perm _)) in H.
    apply filter_In in H as [Hin Hl]. split; [exact Hin | now apply Z.leb_le].
  - intros [Hin Hl].
    apply (Permutation_in _ (Permutation_sym (sorted_by_likes_perm _))).
    apply filter_In. split; [exact Hin | now apply Z.leb_le].
Qed.

(** ** The text of a harvested post *)

Section CleanText.
Import PyStr.

Lemma collapse_cons (p : ascii -> bool) (a : ascii) (s : string) :
  collapse p (String a s) =
  if p a then
    match s with
    | String b _ => if p b then collapse p s else String " " (collapse p s)
    | EmptyString => String " " EmptyString
    end
  else String a (collapse p s).
Proof. reflexivity. Qed.

Lemma well_spaced_cons (a : ascii) (s : string) :
  well_spaced (String a s) =
  (if is_space a
   then Ascii.eqb a " "
        && match s with
           | String b _ => negb (is_space b)
           | EmptyString => true
           end
   else true)
  && well_spaced s.
Proof. reflexivity. Qed.

Lemma collapse_well_spaced (s : string) :
  well_spaced (collapse is_space s) = true.
Proof.
  induction s as [|a s IH]; [reflexivity|].
  rewrite collapse_cons. destruct (is_space a) eqn:Ea.
  - destruct s as [|b s']; [reflexivity|].
    destruct (is_space b) eqn:Eb; [exact IH|].
    rewrite well_spaced_cons, IH, collapse_cons, Eb.
    cbv iota. rewrite Eb. reflexivity.
  - now rewrite well_spaced_cons, Ea, IH.
Qed.

Lemma well_spaced_tail (a : ascii) (s : string) :
  well_spaced (String a s) = true -> well_spaced s = true.
Proof. simpl. intros H. now apply andb_true_iff in H as [_ H]. Qed.

Lemma lstrip_well_spaced (p : ascii -> bool) (s : string) :
  well_spaced s = true -> well_spaced (lstrip p s) = true.
Proof.
  induction s as [|a s IH]; [reflexivity|].
  intros H. simpl lstrip. destruct (p a); [|exact H].
  apply IH. now apply well_spaced_tail in H.
Qed.

Lemma rstrip_head (p : ascii -> bool) (s : string) (b : ascii) (r : string) :
  rstrip p s = String b r -> exists s', s = String b s'.
Proof.
  destruct s as [|a s]; simpl; [discriminate|].
  destruct (rstrip p s).
  - destruct (p a); [discriminate|]. intros [= <- _]. eauto.
  - intros [= <- _]. eauto.
Qed.

Lemma rstrip_well_spaced (p : ascii -> bool) (s : string) :
  well_spaced s = true -> well_spaced (rstrip p s) = true.
Proof.
  induction s as [|a s IH]; [reflexivity|].
  intros H. pose proof (well_spaced_tail _ _ H) as Hs. specialize (IH Hs).
  simpl rstrip. destruct (rstrip p s) as [|b r] eqn:Er.
  - destruct (p a); [reflexivity|].
    simpl in H. apply andb_true_iff in H as [Ha _].
    simpl. destruct (is_space a); [|reflexivity].
    apply andb_true_iff in Ha as [Ha _]. now rewrite Ha.
  - destruct (rstrip_head _ _ _ _ Er) as [s' ->].
    simpl in H. apply andb_true_iff in H as [Ha _].
    change (well_spaced (String a (String b r)))
      with ((if is_space a then Ascii.eqb a " " && negb (is_space b) else true)
            && well_spaced (String b r)).
    now rewrite Ha, IH.
Qed.

Lemma lstrip_first (s : string) : first_is_space (lstrip is_space s) = false.
Proof.
  induction s as [|a s IH]; [reflexivity|].
  simpl lstrip. destruct (is_space a) eqn:Ea; [exact IH|]. exact Ea.
Qed.

Lemma rstrip_last (s : string) : last_is_space (rstrip is_space s) = false.
Proof.
  induction s as [|a s IH]; [reflexivity|].
  simpl rstrip. destruct (rstrip is_space s) as [|b r].
  - destruct (is_space a) eqn:Ea; [reflexivity | exact Ea].
  - exact IH.
Qed.

Lemma lstrip_last (p : ascii -> bool) (s : string) :
  last_is_space s = false -> last_is_space (lstrip p s) = false.
Proof.
  induction s as [|a s IH]; [reflexivity|].
  intros H. simpl lstrip. destruct (p a); [|exact H].
  apply IH. destruct s; [reflexivity | exact H].
Qed.

Lemma strip_collapse_tidy (s : string) :
  tidy (strip is_space (collapse is_space s)) = true.
Proof.
  unfold tidy, strip.
  rewrite lstrip_well_spaced
    by apply rstrip_well_spaced, collapse_well_spaced.
  rewrite lstrip_first, lstrip_last by apply rstrip_last.
  reflexivity.
Qed.

(** In a well spaced text the only whitespace character is the space. *)
Lemma well_spaced_only_spaces (c : ascii) (s : string) :
  is_space c = true -> Ascii.eqb c " " = false ->
  well_spaced s = true -> has_char c s = false.
Proof.
  intros Hc Hne. induction s as [|a s IH]; [reflexivity|].
  intros H. pose proof (well_spaced_tail _ _ H) as Hs.
  simpl in H. apply andb_true_iff in H as [Ha _].
  simpl. rewrite (IH Hs), orb_false_r.
  destruct (Ascii.eqb_spec a c) as [->|]; [|reflexivity].
  rewrite Hc in Ha. apply andb_true_iff in Ha as [Ha _]. congruence.
Qed.

End CleanText.

(** X8. The content stored for a post is tidy, whatever the post held:
    it neither starts nor ends with whitespace, and every whitespace in
    it is one plain space between two other characters; in particular no
    line break and no tabulation is left. *)
Theorem cleaned_content_is_tidy (lib : PyLib) (tweet : Tweet) :
  tidy (tw_rawContent (scraping_lambda.process_tweet_content lib tweet)) = true
  /\ (forall c,
         PyStr.is_space c = true -> Ascii.eqb c " " = false ->
         PyStr.has_char c
           (tw_rawContent (scraping_lambda.process_tweet_content lib tweet))
         = false)
  /\ tw_id (scraping_lambda.process_tweet_content lib tweet) = tw_id tweet
  /\ tw_likeCount (scraping_lambda.process_tweet_content lib tweet)
     = tw_likeCount tweet.
Proof.
  assert (Ht : tidy (tw_rawContent
                       (scraping_lambda.process_tweet_content lib tweet))
               = true) by apply strip_collapse_tidy.
  split; [exact Ht|]. split; [|split; reflexivity].
  intros c Hc Hne. apply well_spaced_only_spaces; try assumption.
  unfold tidy in Ht. apply andb_true_iff in Ht as [Ht _].
  now apply andb_true_iff in Ht as [Ht _].
Qed.

(** ** What the enrichment does to the outside *)

Section EnrichEffects.
Import enrichment_lambda.
Context (lib : PyLib) (env : Env).

Lemma length_take (n : nat) (s : string) : String.length (PyStr.take n s) <= n.
Proof.
  revert s. induction n as [|n IH]; intros [|a s]; simpl; try lia.
  specialize (IH s). lia.
Qed.

Lemma take_not_empty (n : nat) (s : string) :
  s <> "" -> PyStr.take (S n) s <> "".
Proof. destruct s; [congruence | discriminate]. Qed.

(** One post: the store is not touched, and at most one call is made. *)
Lemma enrich_tweet_effect (tw : json) (w w' : World) (r : result json) :
  enrich_tweet lib env tw w = (r, w') ->
  objs w' = objs w
  /\ exists evs,
       trace w' = trace w ++ evs /\ Forall endpoint_call evs
       /\ length evs <= 1.
Proof.
  destruct (tweet_text tw) as [e|s] eqn:Ht.
  - rewrite (enrich_tweet_raises lib env tw e w Ht). intros [= <- <-].
    split; [reflexivity|]. exists []. rewrite app_nil_r.
    repeat split; auto.
  - rewrite (enrich_tweet_cases lib env tw s w Ht).
    destruct (String.eqb_spec s "") as [->|Hs].
    { intros [= <- <-]. split; [reflexivity|]. exists []. rewrite app_nil_r.
      repeat split; auto. }
    cbv zeta. intros H.
    assert (Hw : w' = log (EvInvoke (PyStr.take MAX_CHARS s)) w).
    { destruct (infer env (trace w) _); [now injection H|].
      destruct (_pick_best_label lib _); now injection H. }
    subst w'. split; [reflexivity|].
    exists [EvInvoke (PyStr.take MAX_CHARS s)].
    split; [reflexivity|]. split; [|simpl; lia].
    constructor; [|constructor]. split.
    + now apply (take_not_empty 1023).
    + apply length_take.
Qed.

Lemma enrich_each_effect (tweets : list json) :
  forall w w' r,
    enrich_each lib env tweets w = (r, w') ->
    objs w' = objs w
    /\ exists evs,
         trace w' = trace w ++ evs /\ Forall endpoint_call evs
         /\ length evs <= length tweets.
Proof.
  induction tweets as [|tw rest IH]; intros w w' r; simpl.
  - intros [= <- <-]. split; [reflexivity|]. exists []. rewrite app_nil_r.
    repeat split; auto.
  - unfold bind.
    destruct (enrich_tweet lib env tw w) as [[e|tw'] w1] eqn:Htw;
      destruct (enrich_tweet_effect _ _ _ _ Htw)
        as (Ho1 & evs1 & Htr1 & Hev1 & Hlen1).
    + intros [= <- <-]. split; [exact Ho1|]. exists evs1.
      repeat split; auto. lia.
    + destruct (enrich_each lib env rest w1) as [[e|rest'] w2] eqn:Hr;
        destruct (IH _ _ _ Hr) as (Ho2 & evs2 & Htr2 & Hev2 & Hlen2);
        intros [= <- <-]; (split; [congruence|]);
        exists (evs1 ++ evs2); rewrite Htr2, Htr1, <- app_assoc;
        (split; [reflexivity|]); (split; [now apply Forall_app|]);
        rewrite length_app; lia.
Qed.

Lemma enrich_all_store (tweets : json) (w w' : World) (r : result json) :
  enrich_all lib env tweets w = (r, w') -> objs w' = objs w.
Proof.
  destruct tweets as [| | | s | l | d]; simpl;
    try (now intros [= <- <-]); unfold bind.
  - destruct (enrich_each lib env _ w) as [[e|l'] w1] eqn:H;
      apply enrich_each_effect in H as [Ho _]; now intros [= <- <-].
  - destruct (enrich_each lib env _ w) as [[e|l'] w1] eqn:H;
      apply enrich_each_effect in H as [Ho _]; now intros [= <- <-].
  - destruct (enrich_each lib env _ w) as [[e|l'] w1] eqn:H;
      apply enrich_each_effect in H as [Ho _]; now intros [= <- <-].
Qed.

End EnrichEffects.

(** X9. Enriching the posts of a file never touches the store, and calls
    the endpoint at most once per post; every text that is sent is not
    empty and has at most [MAX_CHARS] characters. This holds however the
    enrichment ends. *)
Theorem enrichment_calls_are_bounded (lib : PyLib) (env : Env)
  (tweets : list json) (w w' : World) (r : result (list json)) :
  enrichment_lambda.enrich_each lib env tweets w = (r, w') ->
  objs w' = objs w
  /\ exists evs,
       trace w' = trace w ++ evs /\ Forall endpoint_call evs
       /\ length evs <= length tweets.
Proof. apply enrich_each_effect. Qed.

(** X9 on the file of one post. *)
Lemma enrichment_calls_are_bounded_witness :
  objs (snd (enrichment_lambda.enrich_each plain_lib (quiet_env positive_answer)
               [aapl_post] aapl_world))
  = objs aapl_world.
Proof.
  exact (proj1 (enrichment_calls_are_bounded plain_lib
                  (quiet_env positive_answer) [aapl_post] aapl_world _ _
                  (surjective_pairing _))).
Defined.

(** X10. Whatever happens while a file is processed, the store changes
    in one of three ways only: not at all; by the write of the enriched
    file at the destination key (when the delete that follows is
    refused); or by that write followed by the delete of the raw file,
    which is the case of success. Nothing else is ever written or
    deleted. *)
Theorem process_file_store_changes (lib : PyLib) (env : Env)
  (bucket key : string) (w w' : World) (r : result unit) :
  enrichment_lambda.process_file lib env bucket key w = (r, w') ->
  (r <> inr tt /\ objs w' = objs w)
  \/ (exists enriched,
         r <> inr tt
         /\ objs w'
            = <[(DEST_BUCKET, enrichment_lambda.dest_key_of key)
                := BJson enriched]> (objs w))
  \/ (exists enriched,
         r = inr tt
         /\ objs w'
            = delete (bucket, key)
                (<[(DEST_BUCKET, enrichment_lambda.dest_key_of key)
                   := BJson enriched]> (objs w))).
Proof.
  rewrite process_file_unfold.
  pose proof (get_object_logs env bucket key w) as Hg.
  destruct (get_object env bucket key w) as [[e|obj_data] w1];
    simpl in Hg; subst w1.
  { intros [= <- <-]. left. split; [discriminate | reflexivity]. }
  destruct (json_loads obj_data) as [e|tweets].
  { intros [= <- <-]. left. split; [discriminate | reflexivity]. }
  destruct (enrichment_lambda.enrich_all lib env tweets _)
    as [[e|enriched] w2] eqn:Hen;
    apply enrich_all_store in Hen; simpl in Hen.
  { intros [= <- <-]. left. split; [discriminate | exact Hen]. }
  unfold put_object. destruct (s3_fault env (trace w2) _) as [e|].
  { intros [= <- <-]. left. split; [discriminate | exact Hen]. }
  unfold delete_object. simpl trace. simpl objs.
  destruct (s3_fault env _ (EvDelete bucket key)) as [e|]; intros [= <- <-].
  - right. left. exists enriched. split; [discriminate|].
    simpl. now rewrite Hen.
  - right. right. exists enriched. split; [reflexivity|].
    simpl. now rewrite Hen.
Qed.

(** X10 on the file of one post when the delete is refused. *)
Lemma process_file_store_changes_witness :
  exists enriched,
    objs (snd (enrichment_lambda.process_file plain_lib
                 (delete_refused_env positive_answer) SOURCE_BUCKET aapl_key
                 aapl_world))
    = <[(DEST_BUCKET, enrichment_lambda.dest_key_of aapl_key)
        := BJson enriched]> (objs aapl_world).
Proof.
  destruct (process_file_store_changes plain_lib
              (delete_refused_env positive_answer) SOURCE_BUCKET aapl_key
              aapl_world _ _ (surjective_pairing _))
    as [[_ H]|[(enriched & _ & H)|(enriched & Hr & _)]].
  - exfalso. apply (f_equal (fun m => m !! (DEST_BUCKET, "AAPL-2024-01-01.json")))
      in H. vm_compute in H. discriminate H.
  - exists enriched. exact H.
  - exfalso. vm_compute in Hr. discriminate Hr.
Defined.

Section BadPost.
Import enrichment_lambda.
Context (lib : PyLib) (env : Env).

Lemma enrich_each_stops (pre : list json) (bad : json) (post : list json)
  (e : exn) :
  forallb is_post pre = true ->
  tweet_text bad = inl e ->
  forall w, exists w',
    enrich_each lib env (pre ++ bad :: post) w = (inl e, w')
    /\ objs w' = objs w.
Proof.
  intros Hpre Hbad. induction pre as [|tw pre IH]; intros w; simpl.
  - unfold bind. rewrite (enrich_tweet_raises lib env bad e w Hbad). eauto.
  - simpl in Hpre. apply andb_true_iff in Hpre as [Htw Hpre].
    destruct (enrich_tweet_post lib env tw w Htw) as (ls & w1 & H1 & Ho1).
    destruct (IH Hpre w1) as (w' & H2 & Ho2).
    exists w'. unfold bind. rewrite H1, H2. split; [reflexivity | congruence].
Qed.

End BadPost.

(** X11. The isolation of a post covers the call of the endpoint only.
    When an item of the file is not a dictionary, or when the text field
    that is chosen for it is not a string, the exception ends the
    processing of the whole file: nothing is written, the raw file stays,
    and the posts enriched before are lost. *)
Theorem bad_post_fails_the_file (lib : PyLib) (env : Env)
  (bucket key : string) (pre : list json) (bad : json) (post : list json)
  (e : exn) (w : World) :
  objs w !! (bucket, key) = Some (BJson (JArr (pre ++ bad :: post))) ->
  s3_fault env (trace w) (EvGet bucket key) = None ->
  forallb is_post pre = true ->
  enrichment_lambda.tweet_text bad = inl e ->
  exists w',
    enrichment_lambda.process_file lib env bucket key w = (inl e, w')
    /\ objs w' = objs w.
Proof.
  intros Hraw Hget Hpre Hbad.
  destruct (enrich_each_stops lib env pre bad post e Hpre Hbad
              (log (EvGet bucket key) w)) as (w' & Hen & Ho).
  exists w'. split; [|exact Ho].
  rewrite process_file_unfold. unfold get_object. rewrite Hget, Hraw.
  simpl json_loads. cbv iota beta.
  unfold enrichment_lambda.enrich_all, bind. now rewrite Hen.
Qed.

(** X11 on a file whose second item is a string: the key is reported in
    [failed] and the store is as it was. *)
Lemma bad_post_fails_the_file_witness :
  exists w',
    enrichment_lambda.process_file plain_lib (quiet_env positive_answer)
      SOURCE_BUCKET aapl_key mixed_world
    = (inl (AttributeError "get"), w')
    /\ objs w' = objs mixed_world.
Proof.
  apply (bad_post_fails_the_file plain_lib (quiet_env positive_answer)
           SOURCE_BUCKET aapl_key [aapl_post] (JStr "not a post") []).
  - vm_compute. reflexivity.
  - reflexivity.
  - reflexivity.
  - reflexivity.
Defined.

(** ** Assigning the sentiment twice *)

Section SetTwice.

Lemma set_set_same (d : list (string * json)) (k : string) (v v' : json) :
  Py.set (Py.set d k v) k v' = Py.set d k v'.
Proof.
  induction d as [|[k0 v0] d IH]; simpl.
  - now rewrite String.eqb_refl.
  - destruct (String.eqb k0 k) eqn:E; simpl; rewrite E; [reflexivity|].
    now rewrite IH.
Qed.

Lemma set_cons (k0 : string) (v0 : json) (d : list (string * json))
  (k : string) (v : json) :
  Py.set ((k0, v0) :: d) k v
  = if String.eqb k0 k then (k0, v) :: d else (k0, v0) :: Py.set d k v.
Proof. reflexivity. Qed.

Lemma set_set_swap (d : list (string * json)) (k k' : string) (v v' u : json) :
  k <> k' ->
  Py.set (Py.set (Py.set d k v) k' u) k v' = Py.set (Py.set d k v') k' u.
Proof.
  intros Hne.
  assert (Hkk' : String.eqb k k' = false) by now apply String.eqb_neq.
  assert (Hk'k : String.eqb k' k = false)
    by (apply String.eqb_neq; congruence).
  induction d as [|[k0 v0] d IH].
  - simpl. rewrite Hkk'. simpl. now rewrite String.eqb_refl.
  - rewrite !(set_cons k0 v0 d).
    destruct (String.eqb k0 k) eqn:E0.
    + apply String.eqb_eq in E0. subst k0.
      rewrite !set_cons, Hkk', set_cons, String.eqb_refl. reflexivity.
    + rewrite !set_cons. destruct (String.eqb k0 k') eqn:E1.
      * rewrite set_cons, E0, set_set_same. reflexivity.
      * rewrite set_cons, E0, IH. reflexivity.
Qed.

End SetTwice.

(** X12. Assigning a sentiment to a post that already has one replaces
    it: the post is as if only the second assignment had been made, so a
    file that is enriched again gets no duplicated field. *)
Theorem sentiment_is_overwritten (tw : json) (ls ls' : json * Q) :
  enrichment_lambda.set_sentiment (enrichment_lambda.set_sentiment tw ls) ls'
  = enrichment_lambda.set_sentiment tw ls'.
Proof.
  destruct tw as [| | | | |d]; try reflexivity.
  unfold enrichment_lambda.set_sentiment. f_equal.
  rewrite (set_set_swap _ "sentiment_score" "sentiment") by discriminate.
  now rewrite (set_set_swap _ "sentiment" "sentiment_score") by discriminate.
Qed.

(** ** The order of a batch, and of the candidates *)

Section BatchOrder.
Import enrichment_lambda.
Context (lib : PyLib) (env : Env).

Lemma handle_records_order (records : list S3Record) :
  forall processed failed w,
  exists new_processed new_failed w',
    handle_records lib env records processed failed w
    = (inr (processed ++ new_processed, failed ++ new_failed), w')
    /\ sublist new_processed (accepted_keys lib records)
    /\ sublist (map fst new_failed) (accepted_keys lib records).
Proof.
  induction records as [|record rest IH]; intros processed failed w.
  - exists [], [], w. rewrite !app_nil_r. simpl.
    repeat split; constructor.
  - simpl handle_records. unfold bind, accepted_keys. simpl.
    fold (accepted_keys lib rest).
    destruct (key_accepted (unquote_plus lib (object_key record))) eqn:Hacc.
    + destruct (process_file lib env (bucket_name record)
                  (unquote_plus lib (object_key record)) w)
        as [[e|[]] w1] eqn:Hp.
      * rewrite (handle_record_failure lib env _ _ _ _ _ _ Hacc Hp). simpl.
        destruct (IH processed
                    (failed ++ [(unquote_plus lib (object_key record), e)]) w1)
          as (np & nf & w' & Hr & Hsp & Hsf).
        exists np, ((unquote_plus lib (object_key record), e) :: nf), w'.
        rewrite Hr, <- app_assoc. simpl. split; [reflexivity|].
        split; [now apply sublist_cons | now apply sublist_skip].
      * rewrite (handle_record_success lib env _ _ _ _ _ Hacc Hp). simpl.
        destruct (IH (processed ++ [unquote_plus lib (object_key record)])
                    failed w1)
          as (np & nf & w' & Hr & Hsp & Hsf).
        exists (unquote_plus lib (object_key record) :: np), nf, w'.
        rewrite Hr, <- app_assoc. simpl. split; [reflexivity|].
        split; [now apply sublist_skip | now apply sublist_cons].
    + rewrite (handle_record_skips lib env _ _ _ _ Hacc). simpl. apply IH.
Qed.

Lemma handle_records_all_skipped (records : list S3Record) :
  accepted_keys lib records = [] ->
  forall processed failed w,
    handle_records lib env records processed failed w
    = (inr (processed, failed), w).
Proof.
  induction records as [|record rest IH]; intros Hnone processed failed w;
    [reflexivity|].
  unfold accepted_keys in Hnone. simpl in Hnone.
  destruct (key_accepted (unquote_plus lib (object_key record))) eqn:Hacc;
    [discriminate|].
  simpl handle_records. unfold bind.
  rewrite (handle_record_skips lib env _ _ _ _ Hacc). simpl.
  now apply IH.
Qed.

End BatchOrder.

(** X13. The two lists of the reply follow the batch: the processed keys,
    and the keys of the failures, each come in the order of their
    notifications. A batch in which no key is accepted gives two empty
    lists and leaves the outside world as it was, without any call. *)
Theorem reply_follows_the_batch (lib : PyLib) (env : Env)
  (event : enrichment_lambda.LambdaEvent) (w : World) :
  exists processed failed w',
    enrichment_lambda.lambda_handler lib env event w
    = (inr (processed, failed), w')
    /\ sublist processed
         (accepted_keys lib
            (match enrichment_lambda.Records event with
             | Some l => l
             | None => []
             end))
    /\ sublist (map fst failed)
         (accepted_keys lib
            (match enrichment_lambda.Records event with
             | Some l => l
             | None => []
             end))
    /\ (accepted_keys lib
          (match enrichment_lambda.Records event with
           | Some l => l
           | None => []
           end) = [] ->
        processed = [] /\ failed = [] /\ w' = w).
Proof.
  unfold enrichment_lambda.lambda_handler.
  destruct (handle_records_order lib env
              (match enrichment_lambda.Records event with
               | Some l => l
               | None => []
               end) [] [] w) as (np & nf & w' & Hr & Hsp & Hsf).
  exists np, nf, w'. split; [exact Hr|]. split; [exact Hsp|].
  split; [exact Hsf|].
  intros Hnone.
  rewrite (handle_records_all_skipped lib env _ Hnone) in Hr.
  now injection Hr as <- <- <-.
Qed.

Section FirstMaximum.
Context (lib : PyLib).

(** The running maximum ends on the first item of greatest score. *)
Lemma max_from_first (items : list json) :
  forall pre best0 mid,
    numeric_score best0 = true ->
    forallb numeric_score items = true ->
    (forall p, In p pre -> (score_of p < score_of best0)%Q) ->
    (forall p, In p mid -> (score_of p <= score_of best0)%Q) ->
    exists before best after,
      pre ++ best0 :: mid ++ items = before ++ best :: after
      /\ Py.max_from score_key best0 items = inr best
      /\ numeric_score best = true
      /\ (forall p, In p before -> (score_of p < score_of best)%Q)
      /\ (forall p, In p after -> (score_of p <= score_of best)%Q).
Proof.
  induction items as [|x rest IH]; intros pre best0 mid H0 Hall Hpre Hmid.
  - exists pre, best0, mid. rewrite app_nil_r. auto.
  - simpl in Hall. apply andb_true_iff in Hall as [Hx Hrest].
    simpl Py.max_from. rewrite (gt_numeric _ _ Hx H0).
    destruct (Py.Qgtb (score_of x) (score_of best0)) eqn:E.
    + apply Qgtb_true in E.
      destruct (IH (pre ++ best0 :: mid) x [] Hx Hrest)
        as (before & best & after & Heq & Hm & Hn & Hb & Ha).
      * intros p Hp. apply in_app_or in Hp as [Hp|[<-|Hp]].
        -- eapply Qlt_trans; [now apply Hpre | exact E].
        -- exact E.
        -- eapply Qle_lt_trans; [now apply Hmid | exact E].
      * intros p [].
      * exists before, best, after. split; [|auto].
        rewrite <- Heq. simpl. now rewrite <- app_assoc.
    + apply Qgtb_false in E.
      destruct (IH pre best0 (mid ++ [x]) H0 Hrest Hpre)
        as (before & best & after & Heq & Hm & Hn & Hb & Ha).
      * intros p Hp. apply in_app_or in Hp as [Hp|[<-|[]]];
          [now apply Hmid | exact E].
      * exists before, best, after. split; [|auto].
        rewrite <- Heq. now rewrite <- app_assoc.
Qed.

End FirstMaximum.

(** X14. When several candidates share the greatest score, the first of
    them is chosen: for a response whose candidates all have a label and
    a number for score, every candidate before the chosen one has a score
    that is strictly smaller, and none after it has a greater one. What
    is returned is the label of the chosen candidate with [float] of its
    score, which is the score itself when it is a float or an integer of
    magnitude up to 2^53. *)
Theorem first_best_candidate_is_selected (lib : PyLib) (r : json) :
  response_candidates r <> [] ->
  forallb labelled (response_candidates r) = true ->
  forallb numeric_score (response_candidates r) = true ->
  exists before best after,
    response_candidates r = before ++ best :: after
    /\ _pick_best_label lib r = selection lib best
    /\ (Py.is_exact_float (score_of best) = true ->
        _pick_best_label lib r = inr (label_of best, score_of best))
    /\ (forall p, In p before -> (score_of p < score_of best)%Q)
    /\ (forall p, In p after -> (score_of p <= score_of best)%Q).
Proof.
  intros Hne Hlab Hnum.
  assert (Hsel : exists before best after,
    response_candidates r = before ++ best :: after
    /\ _pick_best_label lib r = selection lib best
    /\ (forall p, In p before -> (score_of p < score_of best)%Q)
    /\ (forall p, In p after -> (score_of p <= score_of best)%Q)).
  { unfold _pick_best_label, selection. rewrite candidates_unfold.
    rewrite (filter_all _ _ Hlab).
    destruct r as [| | | |l|]; try (simpl in Hne; congruence).
    destruct l as [|first others]; [simpl in Hne; congruence|].
    destruct (response_candidates (JArr (first :: others))) as [|p0 items];
      [congruence|].
    simpl in Hnum. apply andb_true_iff in Hnum as [H0 Hrest].
    destruct (max_from_first items [] p0 [] H0 Hrest)
      as (before & best & after & Heq & Hm & Hn & Hb & Ha).
    - intros p [].
    - intros p [].
    - exists before, best, after. simpl in Heq.
      rewrite Hm, (float_numeric lib _ Hn). auto. }
  destruct Hsel as (before & best & after & Heq & Hpick & Hb & Ha).
  exists before, best, after. split; [exact Heq|]. split; [exact Hpick|].
  split; [|auto].
  intros Hex. rewrite Hpick. now apply selection_exact.
Qed.

(** X14 on two candidates of the same score. *)
Lemma first_best_candidate_is_selected_witness :
  exists before best after,
    response_candidates tie_answer = before ++ best :: after
    /\ _pick_best_label plain_lib tie_answer = selection plain_lib best
    /\ (Py.is_exact_float (score_of best) = true ->
        _pick_best_label plain_lib tie_answer
        = inr (label_of best, score_of best))
    /\ (forall p, In p before -> (score_of p < score_of best)%Q)
    /\ (forall p, In p after -> (score_of p <= score_of best)%Q).
Proof.
  apply (first_best_candidate_is_selected plain_lib tie_answer);
    [discriminate | reflexivity | reflexivity].
Defined.

(** ** Edges of the merge and of the choice of the text *)

(** X15. The merge needs the stored results to be a list: when they
    decoded to anything else, the first post that is kept makes the merge
    raise [TypeError]; with no post kept the stored value goes through as
    it is. *)
Theorem merge_results_needs_a_list (lib : PyLib) (tag : string)
  (results : json) (top_tweets : list Tweet) :
  (forall l, results <> JArr l) ->
  scraping_lambda.merge_results lib tag results top_tweets
  = match top_tweets with
    | [] => inr results
    | _ :: _ => inl TypeError
    end.
Proof.
  intros Hnot. destruct top_tweets as [|t rest]; [reflexivity|].
  simpl. destruct results as [| | | |l|]; try reflexivity.
  now destruct (Hnot l).
Qed.

(** X15 on stored results that are a dictionary. *)
Lemma merge_results_needs_a_list_witness :
  scraping_lambda.merge_results plain_lib "$AAPL" (JObj [])
    [ {| tw_id := 1; tw_username := "u"; tw_displayname := "U";
         tw_rawContent := "AAPL up"; tw_date := "2024-01-01";
         tw_likeCount := 7; tw_retweetCount := 0; tw_replyCount := 0;
         tw_hashtags := None; tw_url := "https://x.com/u/1" |} ]
  = inl TypeError.
Proof.
  apply (merge_results_needs_a_list plain_lib "$AAPL" (JObj [])).
  discriminate.
Defined.

(** X16. The text of a post is taken from the first of [content], [text],
    [rawContent] and [full_text] whose value is true for Python; when that
    value is not a string the post raises, and when no field is true the
    text is empty. So a [content] that holds only whitespace is chosen
    and hides the other fields: the text is empty, whatever they hold. *)
Theorem first_true_text_field_wins (d : list (string * json)) :
  enrichment_lambda.tweet_text (JObj d)
  = match List.find (fun k => Py.truthy (Py.get d k JNull)) text_fields with
    | None => inr ""
    | Some k =>
        match Py.get d k JNull with
        | JStr s => inr (PyStr.strip PyStr.is_space s)
        | _ => inl (AttributeError "strip")
        end
    end
  /\ (forall s,
         Py.lookup d "content" = Some (JStr s) -> s <> "" ->
         all_space s = true ->
         enrichment_lambda.tweet_text (JObj d) = inr "").
Proof.
  assert (Hfind :
    enrichment_lambda.tweet_text (JObj d)
    = match List.find (fun k => Py.truthy (Py.get d k JNull)) text_fields with
      | None => inr ""
      | Some k =>
          match Py.get d k JNull with
          | JStr s => inr (PyStr.strip PyStr.is_space s)
          | _ => inl (AttributeError "strip")
          end
      end).
  { unfold enrichment_lambda.tweet_text, text_fields, Py.or_. simpl List.find.
    destruct (Py.truthy (Py.get d "content" JNull)); [reflexivity|].
    destruct (Py.truthy (Py.get d "text" JNull)); [reflexivity|].
    destruct (Py.truthy (Py.get d "rawContent" JNull)); [reflexivity|].
    destruct (Py.truthy (Py.get d "full_text" JNull)); reflexivity. }
  split; [exact Hfind|].
  intros s Hc Hs Hsp. rewrite Hfind. unfold text_fields. simpl List.find.
  unfold Py.get at 1. rewrite Hc. simpl Py.truthy.
  apply String.eqb_neq in Hs. rewrite Hs. simpl negb. cbv iota.
  unfold Py.get. rewrite Hc. now rewrite strip_all_space.
Qed.

(** ** File names, destination keys, and harvested posts *)

(** X17. The file name of a ticker holds no space and no [#], and ends
    with [.json], whatever the ticker. *)
Theorem file_name_is_clean (tag : string) :
  PyStr.has_char " " (scraping_lambda.file_name_of tag) = false
  /\ PyStr.has_char "#" (scraping_lambda.file_name_of tag) = false
  /\ PyStr.endswith (scraping_lambda.file_name_of tag) ".json" = true.
Proof.
  unfold scraping_lambda.file_name_of. split; [|split].
  - rewrite has_char_app. apply orb_false_iff. split; [|reflexivity].
    now apply has_char_replaced.
  - rewrite has_char_app. apply orb_false_iff. split; [|reflexivity].
    apply has_char_replace; [reflexivity|].
    now apply has_char_replaced.
  - apply endswith_spec. eauto.
Qed.

(** X18. The destination key of an accepted key is flat: it holds no
    [/], so it is never the key of the raw file, even when the bucket of
    the notification is the destination bucket. *)
Theorem destination_key_is_flat (key : string) :
  enrichment_lambda.key_accepted key = true ->
  PyStr.has_char "/" (enrichment_lambda.dest_key_of key) = false
  /\ enrichment_lambda.dest_key_of key <> key
  /\ PyStr.endswith (enrichment_lambda.dest_key_of key) ".json" = true.
Proof.
  intros Hacc. split; [|split].
  - apply key_accepted_iff in Hacc as (t & d & Ht & Hd & ->).
    unfold enrichment_lambda.dest_key_of, enrichment_lambda.ticker_of,
      enrichment_lambda.date_of.
    rewrite (split_partition_key _ _ Ht Hd). simpl nth.
    rewrite !has_char_app, (rsplit1_head_without _ _ _ Ht),
      (split1_last_without _ _ _ Hd). reflexivity.
  - now apply dest_key_differs.
  - apply endswith_spec. unfold enrichment_lambda.dest_key_of.
    exists (enrichment_lambda.ticker_of key +:+ "-"
            +:+ enrichment_lambda.date_of key).
    now rewrite !append_assoc.
Qed.

(** X18 on the key of the specification. *)
Lemma destination_key_is_flat_witness :
  enrichment_lambda.key_accepted aapl_key = true
  /\ PyStr.has_char "/" (enrichment_lambda.dest_key_of aapl_key) = false.
Proof.
  split; [reflexivity|].
  exact (proj1 (destination_key_is_flat aapl_key eq_refl)).
Defined.

Section HarvestedPosts.
Import PyStr.

Lemma lstrip_id (s : string) :
  first_is_space s = false -> lstrip is_space s = s.
Proof. destruct s as [|a s]; simpl; [reflexivity|]. now intros ->. Qed.

Lemma rstrip_id (s : string) :
  last_is_space s = false -> rstrip is_space s = s.
Proof.
  induction s as [|a s IH]; [reflexivity|].
  intros H. simpl rstrip. destruct s as [|b s'].
  - simpl in *. now rewrite H.
  - rewrite (IH H). reflexivity.
Qed.

Lemma strip_tidy (s : string) : tidy s = true -> strip is_space s = s.
Proof.
  unfold tidy, strip. intros H.
  apply andb_true_iff in H as [H Hl]. apply andb_true_iff in H as [_ Hf].
  apply negb_true_iff in Hl, Hf.
  now rewrite rstrip_id, lstrip_id.
Qed.

Lemma tweet_text_post_json (p : scraping_lambda.Post) :
  enrichment_lambda.tweet_text (scraping_lambda.post_json p)
  = inr (strip is_space (scraping_lambda.p_content p)).
Proof.
  destruct p as [i tk u dn c ca l rt rp h url].
  unfold scraping_lambda.post_json, enrichment_lambda.tweet_text, Py.get,
    Py.or_.
  cbn [scraping_lambda.p_id scraping_lambda.p_ticker
       scraping_lambda.p_username scraping_lambda.p_display_name
       scraping_lambda.p_content scraping_lambda.p_created_at
       scraping_lambda.p_likes scraping_lambda.p_retweets
       scraping_lambda.p_replies scraping_lambda.p_hashtags
       scraping_lambda.p_url].
  simpl Py.lookup. simpl Py.truthy.
  destruct (String.eqb_spec c "") as [->|_]; reflexivity.
Qed.

End HarvestedPosts.

(** X19. What the scraper stores for a post is a post for the enricher:
    a dictionary whose only text field is [content], a string. The text
    the enricher takes from it is the stored content as it is (it is
    already stripped); a post with an empty content gets the sentinel
    without a call of the endpoint. *)
Theorem harvested_post_is_enrichable (lib : PyLib) (env : Env) (tag : string)
  (t : Tweet) :
  is_post (scraping_lambda.tweet_dict lib tag t) = true
  /\ enrichment_lambda.tweet_text (scraping_lambda.tweet_dict lib tag t)
     = inr (tw_rawContent (scraping_lambda.process_tweet_content lib t))
  /\ (tw_rawContent (scraping_lambda.process_tweet_content lib t) = "" ->
      forall w,
        enrichment_lambda.enrich_tweet lib env
          (scraping_lambda.tweet_dict lib tag t) w
        = (inr (enrichment_lambda.set_sentiment
                  (scraping_lambda.tweet_dict lib tag t) sentinel), w)).
Proof.
  assert (Htext :
    enrichment_lambda.tweet_text (scraping_lambda.tweet_dict lib tag t)
    = inr (tw_rawContent (scraping_lambda.process_tweet_content lib t))).
  { unfold scraping_lambda.tweet_dict. rewrite tweet_text_post_json.
    change (scraping_lambda.p_content (scraping_lambda.post_of_tweet lib tag t))
      with (tw_rawContent (scraping_lambda.process_tweet_content lib t)).
    rewrite strip_tidy; [reflexivity|]. apply strip_collapse_tidy. }
  split; [reflexivity|]. split; [exact Htext|].
  intros Hempty w.
  rewrite (enrich_tweet_cases lib env _ _ w Htext), Hempty. reflexivity.
Qed.
